(** * large-events: the events and users microservices

    A shallow embedding of [events/app.py] and [users/app.py].  Route
    handlers are computations in a state-and-exception monad over a
    "world" made of the process-wide store handle, the contents of the
    MongoDB collection, the UTC clock and a log of the store calls that
    were issued.  Python dictionaries are association lists (insertion
    order is kept, keys are unique), Flask's [request.args] and
    [request.form] are association lists of strings. *)

From Stdlib Require Import List String Ascii Bool ZArith NArith Lia.
Import ListNotations.
Local Open Scope string_scope.
Set Warnings "-register-all".

(** ** Python values, dictionaries and exceptions *)

Module Py.

(** The values that travel through the two services.  [VObjectId]
    carries the 12 (or fewer, see [fromhex]) bytes of a [bson.ObjectId]. *)
Inductive value : Type :=
| VNone
| VBool (b : bool)
| VInt (z : Z)
| VStr (s : string)
| VObjectId (raw : list N)
| VList (items : list value)
| VDict (entries : list (string * value)).

Definition dict := list (string * value).

(** [d.get(k)] *)
Fixpoint dict_get (d : dict) (k : string) : option value :=
  match d with
  | [] => None
  | (k', v) :: rest => if String.eqb k' k then Some v else dict_get rest k
  end.

(** [d[k] = v]: an existing key keeps its position, a new one goes last. *)
Fixpoint dict_set (d : dict) (k : string) (v : value) : dict :=
  match d with
  | [] => [(k, v)]
  | (k', v') :: rest =>
      if String.eqb k' k then (k', v) :: rest else (k', v') :: dict_set rest k v
  end.

Definition dict_keys (d : dict) : list string := map fst d.

(** Truth value testing, as [not x] and [if x] use it. *)
Definition truthy (v : value) : bool :=
  match v with
  | VNone => false
  | VBool b => b
  | VInt z => negb (Z.eqb z 0)
  | VStr s => negb (String.eqb s "")
  | VObjectId _ => true
  | VList items => match items with [] => false | _ => true end
  | VDict entries => match entries with [] => false | _ => true end
  end.

(** First value bound to [k] in a werkzeug [MultiDict]. *)
Fixpoint multi_get (m : list (string * string)) (k : string) : option string :=
  match m with
  | [] => None
  | (k', v) :: rest => if String.eqb k' k then Some v else multi_get rest k
  end.

Inductive exn : Type :=
| DBNotConnectedError (msg : string)
| BadRequestKeyError (key : string)
| KeyError (key : string)
| InvalidId (oid : string)
| AttributeError (name : string)
| OperationFailure (msg : string).

(** What evaluating an expression or a statement yields. *)
Inductive outcome (A : Type) : Type :=
| Return (a : A)
| Raise (e : exn).
Arguments Return {A} a.
Arguments Raise {A} e.

(** Computations over a state [S] that may raise. *)
Definition M (S A : Type) : Type := S -> outcome A * S.

Definition ret {S A} (a : A) : M S A := fun s => (Return a, s).
Definition raise {S A} (e : exn) : M S A := fun s => (Raise e, s).
Definition bind {S A B} (c : M S A) (k : A -> M S B) : M S B :=
  fun s =>
    match c s with
    | (Return a, s') => k a s'
    | (Raise e, s') => (Raise e, s')
    end.

(** [try: c except ...: h e]; [h] answers [None] for the exceptions
    that no [except] clause names. *)
Definition try_except {S A} (c : M S A) (h : exn -> option (M S A)) : M S A :=
  fun s =>
    match c s with
    | (Return a, s') => (Return a, s')
    | (Raise e, s') =>
        match h e with
        | Some handler => handler s'
        | None => (Raise e, s')
        end
    end.

Definition lift {S A} (o : outcome A) : M S A := fun s => (o, s).

(** [d[k]] on a dict *)
Definition subscript {S} (d : dict) (k : string) : M S value :=
  match dict_get d k with
  | Some v => ret v
  | None => raise (KeyError k)
  end.

(** [m[k]] on [request.args] and [request.form] *)
Definition multi_subscript {S} (m : list (string * string)) (k : string)
  : M S string :=
  match multi_get m k with
  | Some v => ret v
  | None => raise (BadRequestKeyError k)
  end.

End Py.

Import Py.

Declare Scope py_scope.
Delimit Scope py_scope with py.
Notation "x <- c ;; k" := (bind c (fun x => k))
  (at level 61, c at next level, right associativity) : py_scope.
Notation "c ;; k" := (bind c (fun _ => k))
  (at level 61, right associativity) : py_scope.
Local Open Scope py_scope.

(** ** Text of numbers, timestamps and ObjectIds *)

Module Text.

Definition digit_char (d : N) : ascii := ascii_of_N (48 + d).

(** Decimal digits of [n], most significant first; [fuel] bounds the
    number of digits. *)
Fixpoint decimal_fuel (fuel : nat) (n : N) (acc : string) : string :=
  match fuel with
  | O => acc
  | S fuel' =>
      let acc' := String (digit_char (n mod 10)) acc in
      if N.eqb (n / 10) 0 then acc' else decimal_fuel fuel' (n / 10) acc'
  end.

(** [str(n)] *)
Definition decimal (n : N) : string := decimal_fuel (S (N.size_nat n)) n "".

Fixpoint zeros (k : nat) : string :=
  match k with
  | O => ""
  | S k' => String "0" (zeros k')
  end.

(** ["%0<width>d" % n] *)
Definition zfill (width : nat) (n : N) : string :=
  let s := decimal n in
  zeros (width - String.length s) ++ s.

Record datetime : Type := {
  year : N; month : N; day : N;
  hour : N; minute : N; second : N; microsecond : N
}.

(** The ranges that [datetime.datetime] enforces on its fields. *)
Definition valid_datetime (t : datetime) : Prop :=
  (1 <= year t <= 9999)%N /\ (1 <= month t <= 12)%N /\ (1 <= day t <= 31)%N /\
  (hour t < 24)%N /\ (minute t < 60)%N /\ (second t < 60)%N /\
  (microsecond t < 1000000)%N.

(** [t.isoformat(sep=' ', timespec='seconds')] for a naive datetime. *)
Definition isoformat_seconds (t : datetime) : string :=
  zfill 4 (year t) ++ "-" ++ zfill 2 (month t) ++ "-" ++ zfill 2 (day t) ++
  " " ++ zfill 2 (hour t) ++ ":" ++ zfill 2 (minute t) ++ ":" ++
  zfill 2 (second t).

Definition is_digit (c : ascii) : bool :=
  let n := N_of_ascii c in (48 <=? n)%N && (n <=? 57)%N.

(** The shape [YYYY-MM-DD HH:MM:SS]: nineteen characters, digits
    everywhere but at the four separators and the blank. *)
Definition timestamp_shape (s : string) : bool :=
  match list_ascii_of_string s with
  | [y1; y2; y3; y4; d1; m1; m2; d2; a1; a2; sp; h1; h2; c1; n1; n2; c2; s1; s2] =>
      is_digit y1 && is_digit y2 && is_digit y3 && is_digit y4 &&
      Ascii.eqb d1 "-" && is_digit m1 && is_digit m2 &&
      Ascii.eqb d2 "-" && is_digit a1 && is_digit a2 &&
      Ascii.eqb sp " " && is_digit h1 && is_digit h2 &&
      Ascii.eqb c1 ":" && is_digit n1 && is_digit n2 &&
      Ascii.eqb c2 ":" && is_digit s1 && is_digit s2
  | _ => false
  end.

Definition is_space (c : ascii) : bool :=
  let n := N_of_ascii c in
  N.eqb n 32 || ((9 <=? n)%N && (n <=? 13)%N).

Definition hex_value (c : ascii) : option N :=
  let n := N_of_ascii c in
  if (48 <=? n)%N && (n <=? 57)%N then Some (n - 48)%N
  else if (97 <=? n)%N && (n <=? 102)%N then Some (n - 87)%N
  else if (65 <=? n)%N && (n <=? 70)%N then Some (n - 55)%N
  else None.

(** [bytes.fromhex]: two hexadecimal digits per byte, ASCII whitespace
    between bytes is skipped; [None] stands for [ValueError]. *)
Fixpoint fromhex (s : list ascii) : option (list N) :=
  match s with
  | [] => Some []
  | c :: rest =>
      if is_space c then fromhex rest
      else
        match hex_value c, rest with
        | Some hi, c' :: rest' =>
            match hex_value c' with
            | Some lo => option_map (cons (16 * hi + lo)%N) (fromhex rest')
            | None => None
            end
        | _, _ => None
        end
  end.

Definition hex_digit (d : N) : ascii :=
  if (d <? 10)%N then ascii_of_N (48 + d) else ascii_of_N (87 + d).

(** [raw.hex()] *)
Fixpoint hex (raw : list N) : string :=
  match raw with
  | [] => ""
  | b :: rest => String (hex_digit (b / 16)) (String (hex_digit (b mod 16)) (hex rest))
  end.

(** [bson.ObjectId(s)] for a [str] argument: the length must be 24 and
    [bytes.fromhex] must accept it, otherwise [InvalidId] is raised. *)
Definition ObjectId (s : string) : outcome (list N) :=
  if Nat.eqb (String.length s) 24 then
    match fromhex (list_ascii_of_string s) with
    | Some raw => Return raw
    | None => Raise (InvalidId s)
    end
  else Raise (InvalidId s).

(** Big-endian bytes of [n] on [len] positions, the way a driver lays
    out a generated identifier. *)
Fixpoint to_bytes (len : nat) (n : N) : list N :=
  match len with
  | O => []
  | S len' => to_bytes len' (n / 256) ++ [(n mod 256)%N]
  end.

End Text.

Import Text.

(** ** Flask requests and responses *)

Module Flask.

Inductive payload : Type :=
| Text (s : string)
| Json (v : value).

Record response : Type := { status : nat; body : payload }.

(** The part of [flask.request] that the handlers read.  [get_json] is
    what [request.get_json()] yields: the parsed body, [VNone] for no
    body, or an exception. *)
Record request : Type := {
  args : list (string * string);
  form : list (string * string);
  get_json : outcome value
}.

(** [request.<attr>()], a call without arguments of a method of the
    request.  [get_json] is the only such method that Flask's request
    has among the names the handlers use; the lookup of any other name
    raises [AttributeError] before anything is called. *)
Definition call_method {S} (request : request) (attr : string) : M S value :=
  if String.eqb attr "get_json" then lift (get_json request)
  else raise (AttributeError attr).

(** [json.loads(json_util.dumps(v))]: an [ObjectId] comes back as
    [{"$oid": <hex>}], everything else keeps its structure. *)
Fixpoint json_roundtrip (v : value) : value :=
  match v with
  | VObjectId raw => VDict [("$oid", VStr (hex raw))]
  | VList items => VList (map json_roundtrip items)
  | VDict entries =>
      VDict (map (fun kv => let '(k, x) := kv in (k, json_roundtrip x)) entries)
  | _ => v
  end.

(** A view that returns a dict [d], or [jsonify(d)]: status 200. *)
Definition jsonify (d : value) : response := {| status := 200; body := Json d |}.

End Flask.

Import Flask.

(** ** The document store *)

Module Mongo.

(** The filters that the two services hand to the store. *)
Inductive query : Type :=
| match_all                                  (* {} *)
| match_id (oid : list N)                    (* {'_id': oid} *)
| match_text (search : string)               (* {'$text': {'$search': search}} *)
| match_string (field : string) (s : string). (* {field: s} *)

Definition index_keys := list (string * string).

Definition index_keys_dec (a b : index_keys) : {a = b} + {a <> b}.
Proof. repeat decide equality. Defined.

(** A collection: its documents in store order, its indexes, the next
    identifier that an insert assigns, and the store's own text matcher. *)
Record collection : Type := {
  documents : list dict;
  indexes : list index_keys;
  next_oid : N;
  text_matches : string -> dict -> bool
}.

Inductive store_call : Type :=
| find_call (q : query)
| count_documents_call (q : query)
| create_index_call (keys : index_keys)
| insert_one_call (doc : dict).

(** A collection together with the calls issued on it, oldest first. *)
Record store : Type := {
  content : collection;
  calls : list store_call
}.

Definition log (c : store_call) (s : store) : store :=
  {| content := content s; calls := calls s ++ [c] |}.

Definition has_id (oid : list N) (doc : dict) : bool :=
  match dict_get doc "_id" with
  | Some (VObjectId raw) => if list_eq_dec N.eq_dec raw oid then true else false
  | _ => false
  end.

Definition has_string (field s : string) (doc : dict) : bool :=
  match dict_get doc field with
  | Some (VStr s') => String.eqb s' s
  | _ => false
  end.

Definition matches (c : collection) (q : query) (doc : dict) : bool :=
  match q with
  | match_all => true
  | match_id oid => has_id oid doc
  | match_text search => text_matches c search doc
  | match_string field s => has_string field s doc
  end.

Definition is_text_index (keys : index_keys) : bool :=
  existsb (fun kv => String.eqb (snd kv) "text") keys.

(** A text query is refused unless the collection has a text index. *)
Definition answerable (c : collection) (q : query) : bool :=
  match q with
  | match_text _ => existsb is_text_index (indexes c)
  | _ => true
  end.

Definition select (c : collection) (q : query) : outcome (list dict) :=
  if answerable c q then Return (filter (matches c q) (documents c))
  else Raise (OperationFailure "text index required for $text query").

(** [find] *)
Definition find (q : query) : M store (list dict) :=
  fun s => (select (content s) q, log (find_call q) s).

(** [count_documents] *)
Definition count_documents (q : query) : M store nat :=
  fun s =>
    (match select (content s) q with
     | Return docs => Return (List.length docs)
     | Raise e => Raise e
     end,
     log (count_documents_call q) s).

(** [create_index]: nothing changes when the index exists. *)
Definition create_index (keys : index_keys) : M store unit :=
  fun s =>
    let c := content s in
    if in_dec index_keys_dec keys (indexes c)
    then (Return tt, log (create_index_call keys) s)
    else
      (Return tt,
       {| content := {| documents := documents c; indexes := indexes c ++ [keys];
                        next_oid := next_oid c; text_matches := text_matches c |};
          calls := calls s ++ [create_index_call keys] |}).

(** [insert_one]: a document without [_id] gets the next one. *)
Definition insert_one (doc : dict) : M store unit :=
  fun s =>
    let c := content s in
    match dict_get doc "_id" with
    | Some _ =>
        (Return tt,
         {| content := {| documents := documents c ++ [doc]; indexes := indexes c;
                          next_oid := next_oid c; text_matches := text_matches c |};
            calls := calls s ++ [insert_one_call doc] |})
    | None =>
        (Return tt,
         {| content :=
              {| documents :=
                   documents c ++ [("_id", VObjectId (to_bytes 12 (next_oid c))) :: doc];
                 indexes := indexes c;
                 next_oid := N.succ (next_oid c);
                 text_matches := text_matches c |};
            calls := calls s ++ [insert_one_call doc] |})
    end.

(** The calls that only read. *)
Definition is_read (c : store_call) : bool :=
  match c with
  | find_call _ => true
  | count_documents_call _ => true
  | create_index_call _ => false
  | insert_one_call _ => false
  end.

End Mongo.

(** ** The events service, [events/app.py] *)

Module Events.

(** Modelled from the spec: the declared field set of [eventclass.Event],
    which is imported by [events/app.py] and is not part of the sources. *)
Definition EVENT_FIELDS : list string :=
  ["name"; "description"; "author"; "event_time"; "created_at"].

Record event : Type := {
  name : value;
  description : value;
  author : value;
  event_time : value;
  created_at : value
}.

Definition kwarg (kwargs : dict) (k : string) : value :=
  match dict_get kwargs k with
  | Some v => v
  | None => VNone
  end.

(** Modelled from the spec: the constructor of [Event], called with
    keyword arguments, of the missing [eventclass] module.  It keeps the
    declared fields and ignores every other keyword. *)
Definition Event (kwargs : dict) : event :=
  {| name := kwarg kwargs "name";
     description := kwarg kwargs "description";
     author := kwarg kwargs "author";
     event_time := kwarg kwargs "event_time";
     created_at := kwarg kwargs "created_at" |}.

(** Modelled from the spec: the property [Event.dict] of the missing
    [eventclass] module, the declared fields in their declared order. *)
Definition event_dict (e : event) : dict :=
  [("name", name e); ("description", description e); ("author", author e);
   ("event_time", event_time e); ("created_at", created_at e)].

(** What [connect_to_mongodb] hands back. *)
Inductive handle : Type :=
| Thrower
| all_events.

Record world : Type := {
  COLLECTION : handle;              (* app.config['COLLECTION'] *)
  eventsDB : Mongo.store;           (* the collection behind the handle *)
  utcnow : datetime                 (* datetime.datetime.utcnow() *)
}.

(** [connect_to_mongodb], lines 129-145 *)
Definition connect_to_mongodb (MONGODB_URI : option string) : handle :=
  match MONGODB_URI with
  | None => Thrower
  | Some _ => all_events
  end.

Definition with_store (w : world) (s : Mongo.store) : world :=
  {| COLLECTION := COLLECTION w; eventsDB := s; utcnow := utcnow w |}.

(** A store call made from a handler. *)
Definition on_store {A} (c : M Mongo.store A) : M world A :=
  fun w => (fst (c (eventsDB w)), with_store w (snd (c (eventsDB w)))).

Definition app_config_COLLECTION : M world handle :=
  fun w => (Return (COLLECTION w), w).

(** [coll.<attr>]: [Thrower.__getattribute__] raises on every name. *)
Definition getattr (coll : handle) (attr : string) : M world unit :=
  match coll with
  | Thrower =>
      raise (DBNotConnectedError "Not able to find MONGODB_URI environment variable")
  | all_events => ret tt
  end.

Definition datetime_utcnow : M world datetime := fun w => (Return (utcnow w), w).

Definition unavailable : response :=
  {| status := 500; body := Text "Events database was undefined." |}.

(** [build_event_info], lines 106-108: [{**info, 'created_at': time}] *)
Definition build_event_info (info : dict) (time : string) : dict :=
  dict_set info "created_at" (VStr time).

(** [build_events_dict], lines 111-118 *)
Definition build_events_dict (events_cursor : list dict) : value :=
  let events_list := map (fun ev => VDict (event_dict (Event ev))) events_cursor in
  let num_events := List.length events_list in
  VDict [("events", VList events_list); ("num_events", VInt (Z.of_nat num_events))].

(** [text_search_event_name], lines 121-122 *)
Definition text_search_event_name (coll : handle) (name : string)
  : M world (list dict) :=
  getattr coll "find" ;;
  on_store (Mongo.find (Mongo.match_text name)).

(** [get_all_events], lines 33-42 *)
Definition get_all_events : M world response :=
  try_except
    (coll <- app_config_COLLECTION ;;
     getattr coll "find" ;;
     events <- on_store (Mongo.find Mongo.match_all) ;;
     let events_dict := build_events_dict events in
     ret (jsonify (json_roundtrip events_dict)))
    (fun e =>
       match e with
       | DBNotConnectedError _ => Some (ret unavailable)
       | _ => None
       end).

(** [search_event], lines 45-63 *)
Definition search_event (request : request) : M world response :=
  try_except
    (event_name <- multi_subscript (args request) "name" ;;
     coll <- app_config_COLLECTION ;;
     getattr coll "create_index" ;;
     on_store (Mongo.create_index [("name", "text")]) ;;
     coll <- app_config_COLLECTION ;;
     events <- text_search_event_name coll event_name ;;
     let events_dict := build_events_dict events in
     ret (jsonify (json_roundtrip events_dict)))
    (fun e =>
       match e with
       | BadRequestKeyError _ =>
           Some (ret {| status := 400; body := Text "Event name was entered incorrectly." |})
       | DBNotConnectedError _ => Some (ret unavailable)
       | _ => None
       end).

(** [add_event], lines 66-85 *)
Definition add_event (request : request) : M world response :=
  try_except
    (event_name <- multi_subscript (form request) "event_name" ;;
     description <- multi_subscript (form request) "description" ;;
     author_id <- multi_subscript (form request) "author_id" ;;
     event_time <- multi_subscript (form request) "event_time" ;;
     let info := [("name", VStr event_name); ("description", VStr description);
                  ("author", VStr author_id); ("event_time", VStr event_time)] in
     now <- datetime_utcnow ;;
     let current_time := isoformat_seconds now in
     let info := build_event_info info current_time in
     let event := Event info in
     coll <- app_config_COLLECTION ;;
     getattr coll "insert_one" ;;
     on_store (Mongo.insert_one (event_dict event)) ;;
     ret {| status := 201; body := Text "Event added." |})
    (fun e =>
       match e with
       | BadRequestKeyError _ =>
           Some (ret {| status := 400; body := Text "Event info was entered incorrectly." |})
       | DBNotConnectedError _ => Some (ret unavailable)
       | _ => None
       end).

(** [get_one_event], lines 93-103.  The attribute [find] is looked up
    on the handle before the argument [ObjectId(event_id)] is built. *)
Definition get_one_event (event_id : string) : M world response :=
  try_except
    (coll <- app_config_COLLECTION ;;
     getattr coll "find" ;;
     oid <- lift (ObjectId event_id) ;;
     events <- on_store (Mongo.find (Mongo.match_id oid)) ;;
     let events := map (fun ev => event_dict (Event ev)) events in
     let events_dict := build_events_dict events in
     ret (jsonify (json_roundtrip events_dict)))
    (fun e =>
       match e with
       | DBNotConnectedError _ => Some (ret unavailable)
       | _ => None
       end).

End Events.

(** ** The users service, [users/app.py] *)

Module Users.

(** [DB] is built unconditionally when the module is loaded (line 28);
    the world is the [DB.users] collection behind it. *)
Definition world : Type := Mongo.store.

(** The [for user in cursor] loop of [is_authorized_to_edit], lines 52-55 *)
Fixpoint for_user_in (cursor : list dict) : M world bool :=
  match cursor with
  | [] => ret true
  | user :: rest =>
      is_organizer <- subscript user "is_organizer" ;;
      if negb (truthy is_organizer) then ret false else for_user_in rest
  end.

(** [is_authorized_to_edit], lines 41-55 *)
Definition is_authorized_to_edit (username : string) : M world bool :=
  n <- Mongo.count_documents (Mongo.match_string "username" username) ;;
  if Nat.eqb n 0 then ret false
  else
    cursor <- Mongo.find (Mongo.match_string "username" username) ;;
    for_user_in cursor.

(** [get_authorization], lines 31-38 *)
Definition get_authorization (request : request) : M world response :=
  let user := multi_get (form request) "user_id" in
  match user with
  | None =>
      ret (jsonify (VDict [("error", VStr "You must supply a 'user_id' POST parameter!")]))
  | Some user =>
      authorized <- is_authorized_to_edit user ;;
      ret (jsonify (VDict [("edit_access", VBool authorized)]))
  end.

Definition user_object : value :=
  VDict [("user_id", VStr "0"); ("username", VStr "Dummy User");
         ("edit_access", VBool false)].

(** [add_update_user], lines 58-71.  Line 61 calls [request.getJSON()]. *)
Definition add_update_user (request : request) : M world response :=
  user <- call_method request "getJSON" ;;
  match user with
  | VNone =>
      ret (jsonify (VDict [("error", VStr "You must supply a valid user in the body")]))
  | _ =>
      let added_new_user := true in
      ret {| status := if added_new_user then 201 else 200;
             body := Json user_object |}
  end.

End Users.

(** ** Vocabulary of the statements *)

(** The form fields that [add_event] subscripts, in the order it does. *)
Definition required_form_fields : list string :=
  ["event_name"; "description"; "author_id"; "event_time"].

Definition complete_form (request : request) : Prop :=
  forall f, In f required_form_fields -> multi_get (form request) f <> None.

(** The document that [add_event] builds from the four form values and
    the clock. *)
Definition posted_document (n d a t : string) (now : datetime) : dict :=
  [("name", VStr n); ("description", VStr d); ("author", VStr a);
   ("event_time", VStr t); ("created_at", VStr (isoformat_seconds now))].

(** The response envelope: the list and its count. *)
Definition envelope (events : list value) : value :=
  VDict [("events", VList events);
         ("num_events", VInt (Z.of_nat (List.length events)))].

(** A stored document as it appears on the wire. *)
Definition wire_event (ev : dict) : value :=
  json_roundtrip (VDict (Events.event_dict (Events.Event ev))).

(** A wire document that carries the declared fields and nothing else. *)
Definition declared_only (v : value) : Prop :=
  exists d, v = VDict d /\ dict_keys d = Events.EVENT_FIELDS /\
            forall k, ~ In k Events.EVENT_FIELDS -> dict_get d k = None.

(** The store calls of [after] that were not yet in [before]. *)
Definition issued (before after : Mongo.store) (new : list Mongo.store_call) : Prop :=
  Mongo.calls after = (Mongo.calls before ++ new)%list.

Definition two_digits (s : string) : bool :=
  match s with
  | String a (String b EmptyString) => is_digit a && is_digit b
  | _ => false
  end.

Definition four_digits (s : string) : bool :=
  match s with
  | String a (String b (String c (String d EmptyString))) =>
      is_digit a && is_digit b && is_digit c && is_digit d
  | _ => false
  end.

(** The [is_organizer] flag of a user document of the documented shape. *)
Definition organizer_flag (user : dict) : bool :=
  match dict_get user "is_organizer" with
  | Some (VBool b) => b
  | _ => false
  end.

(** User documents as the docstring of [is_authorized_to_edit] gives
    them: [is_organizer] is present and is a boolean. *)
Definition user_document (user : dict) : Prop :=
  exists b, dict_get user "is_organizer" = Some (VBool b).

(** The user documents that [{"username": username}] selects. *)
Definition matching_users (username : string) (w : Users.world) : list dict :=
  filter (Mongo.matches (Mongo.content w) (Mongo.match_string "username" username))
         (Mongo.documents (Mongo.content w)).

(** ** Sample worlds and requests *)

Definition sample_clock : datetime :=
  {| year := 2024; month := 1; day := 9; hour := 0; minute := 59; second := 7;
     microsecond := 250 |}.

Definition sample_events : Mongo.store :=
  {| Mongo.content :=
       {| Mongo.documents :=
            [[("_id", VObjectId (to_bytes 12 7)); ("name", VStr "Launch");
              ("description", VStr "kickoff"); ("author", VStr "u1");
              ("event_time", VStr "2024-01-01T10:00:00");
              ("created_at", VStr "2023-12-31 08:00:00"); ("legacy", VInt 3)]];
          Mongo.indexes := [];
          Mongo.next_oid := 8;
          Mongo.text_matches := Mongo.has_string "name" |};
     Mongo.calls := [] |}.

Definition configured_world : Events.world :=
  {| Events.COLLECTION := Events.connect_to_mongodb (Some "mongodb://db");
     Events.eventsDB := sample_events;
     Events.utcnow := sample_clock |}.

Definition unconfigured_world : Events.world :=
  {| Events.COLLECTION := Events.connect_to_mongodb None;
     Events.eventsDB := sample_events;
     Events.utcnow := sample_clock |}.

Definition request_without_author : request :=
  {| args := [];
     form := [("event_name", "Launch"); ("description", "kickoff");
              ("event_time", "2024-01-01T10:00:00")];
     get_json := Return VNone |}.

Definition complete_request : request :=
  {| args := [("name", "Launch")];
     form := [("event_name", "Launch"); ("description", "kickoff");
              ("author_id", "u1"); ("event_time", "2024-01-01T10:00:00");
              ("created_at", "1999-01-01 00:00:00")];
     get_json := Return (VDict [("username", VStr "ada")]) |}.

Definition empty_request : request :=
  {| args := []; form := []; get_json := Return VNone |}.

Definition sample_users : Users.world :=
  {| Mongo.content :=
       {| Mongo.documents :=
            [[("username", VStr "ada"); ("name", VStr "Ada"); ("is_organizer", VBool true)];
             [("username", VStr "bob"); ("name", VStr "Bob"); ("is_organizer", VBool false)];
             [("username", VStr "ada"); ("name", VStr "Ada L."); ("is_organizer", VBool true)]];
          Mongo.indexes := [];
          Mongo.next_oid := 4;
          Mongo.text_matches := fun _ _ => false |};
     Mongo.calls := [] |}.

(** ** Vocabulary of the further properties *)

Definition present (m : list (string * string)) (k : string) : bool :=
  match multi_get m k with
  | Some _ => true
  | None => false
  end.

(** All four required form fields are there. *)
Definition form_complete (request : request) : bool :=
  forallb (present (form request)) required_form_fields.

(** The truth value that [not user["is_organizer"]] tests. *)
Definition truthy_flag (user : dict) : bool :=
  match dict_get user "is_organizer" with
  | Some v => truthy v
  | None => false
  end.

Definition is_hex (c : ascii) : bool :=
  match hex_value c with
  | Some _ => true
  | None => false
  end.

(** A users collection whose flags are not booleans. *)
Definition loose_users : Users.world :=
  {| Mongo.content :=
       {| Mongo.documents :=
            [[("username", VStr "cy"); ("is_organizer", VStr "false")];
             [("username", VStr "dee"); ("is_organizer", VBool true)];
             [("username", VStr "dee"); ("name", VStr "Dee")];
             [("username", VStr "eli"); ("is_organizer", VInt 0)];
             [("username", VStr "eli"); ("name", VStr "Eli")]];
          Mongo.indexes := [];
          Mongo.next_oid := 6;
          Mongo.text_matches := fun _ _ => false |};
     Mongo.calls := [] |}.

Definition authorization_request (user_id : string) : request :=
  {| args := []; form := [("user_id", user_id)]; get_json := Return VNone |}.
(** * Properties *)

(** ** The monad *)

Lemma bind_Return {S A B} (c : M S A) (k : A -> M S B) s a s' :
  c s = (Return a, s') -> bind c k s = k a s'.
Proof. intros H. unfold bind. rewrite H. reflexivity. Qed.

Lemma bind_Raise {S A B} (c : M S A) (k : A -> M S B) s e s' :
  c s = (Raise e, s') -> bind c k s = (Raise e, s').
Proof. intros H. unfold bind. rewrite H. reflexivity. Qed.

Lemma multi_subscript_present {S} (m : list (string * string)) k v (s : S) :
  multi_get m k = Some v -> multi_subscript m k s = (Return v, s).
Proof. intros H. unfold multi_subscript. rewrite H. reflexivity. Qed.

Lemma multi_subscript_absent {S} (m : list (string * string)) k (s : S) :
  multi_get m k = None -> multi_subscript m k s = (Raise (BadRequestKeyError k), s).
Proof. intros H. unfold multi_subscript. rewrite H. reflexivity. Qed.

(** ** Timestamps *)

Lemma below_forallb (P : N -> bool) (bound : N) :
  forallb (fun k => P (N.of_nat k)) (seq 0 (N.to_nat bound)) = true ->
  forall n : N, (n < bound)%N -> P n = true.
Proof.
  intros Hall n Hn.
  rewrite forallb_forall in Hall.
  rewrite <- (N2Nat.id n). apply Hall.
  apply in_seq. lia.
Qed.

Lemma zfill_two_digits (n : N) : (n < 100)%N -> two_digits (zfill 2 n) = true.
Proof.
  apply (below_forallb (fun n => two_digits (zfill 2 n)) 100).
  vm_compute. reflexivity.
Qed.

Lemma zfill_four_digits (n : N) : (n < 10000)%N -> four_digits (zfill 4 n) = true.
Proof.
  apply (below_forallb (fun n => four_digits (zfill 4 n)) 10000).
  vm_compute. reflexivity.
Qed.

Lemma two_digits_inv s :
  two_digits s = true ->
  exists a b, s = String a (String b EmptyString) /\
              is_digit a = true /\ is_digit b = true.
Proof.
  destruct s as [|a [|b [|c s]]]; simpl; try discriminate.
  intros H. apply andb_true_iff in H. destruct H as [Ha Hb].
  exists a, b. auto.
Qed.

Lemma four_digits_inv s :
  four_digits s = true ->
  exists a b c d, s = String a (String b (String c (String d EmptyString))) /\
                  is_digit a = true /\ is_digit b = true /\
                  is_digit c = true /\ is_digit d = true.
Proof.
  destruct s as [|a [|b [|c [|d [|e s]]]]]; simpl; try discriminate.
  intros H. do 3 (apply andb_true_iff in H; destruct H as [H ?]).
  exists a, b, c, d. repeat split; assumption.
Qed.

Lemma isoformat_seconds_shape (t : datetime) :
  valid_datetime t -> timestamp_shape (isoformat_seconds t) = true.
Proof.
  intros (Hy & Hm & Hd & Hh & Hmi & Hs & _).
  destruct (four_digits_inv _ (zfill_four_digits (year t) ltac:(lia)))
    as (y1 & y2 & y3 & y4 & Ey & Hy1 & Hy2 & Hy3 & Hy4).
  destruct (two_digits_inv _ (zfill_two_digits (month t) ltac:(lia)))
    as (m1 & m2 & Em & Hm1 & Hm2).
  destruct (two_digits_inv _ (zfill_two_digits (day t) ltac:(lia)))
    as (d1 & d2 & Ed & Hd1 & Hd2).
  destruct (two_digits_inv _ (zfill_two_digits (hour t) ltac:(lia)))
    as (h1 & h2 & Eh & Hh1 & Hh2).
  destruct (two_digits_inv _ (zfill_two_digits (minute t) ltac:(lia)))
    as (n1 & n2 & En & Hn1 & Hn2).
  destruct (two_digits_inv _ (zfill_two_digits (second t) ltac:(lia)))
    as (s1 & s2 & Es & Hs1 & Hs2).
  unfold isoformat_seconds. rewrite Ey, Em, Ed, Eh, En, Es.
  unfold timestamp_shape. cbn [append list_ascii_of_string].
  rewrite Hy1, Hy2, Hy3, Hy4, Hm1, Hm2, Hd1, Hd2, Hh1, Hh2, Hn1, Hn2, Hs1, Hs2.
  reflexivity.
Qed.


(** ** Events: the handle and the form *)

Lemma complete_form_values request :
  complete_form request ->
  exists n d a t,
    multi_get (form request) "event_name" = Some n /\
    multi_get (form request) "description" = Some d /\
    multi_get (form request) "author_id" = Some a /\
    multi_get (form request) "event_time" = Some t.
Proof.
  intros H.
  assert (Hn := H "event_name"). assert (Hd := H "description").
  assert (Ha := H "author_id"). assert (Ht := H "event_time").
  unfold required_form_fields in *. simpl in *.
  destruct (multi_get (form request) "event_name") as [n|]; [|exfalso; apply Hn; auto].
  destruct (multi_get (form request) "description") as [d|]; [|exfalso; apply Hd; auto].
  destruct (multi_get (form request) "author_id") as [a|]; [|exfalso; apply Ha; auto].
  destruct (multi_get (form request) "event_time") as [t|]; [|exfalso; apply Ht; auto 6].
  exists n, d, a, t. auto.
Qed.

Ltac run_form Hn Hd Ha Ht :=
  unfold Events.add_event, try_except;
  rewrite (bind_Return _ _ _ _ _ (multi_subscript_present _ _ _ _ Hn));
  rewrite (bind_Return _ _ _ _ _ (multi_subscript_present _ _ _ _ Hd));
  rewrite (bind_Return _ _ _ _ _ (multi_subscript_present _ _ _ _ Ha));
  rewrite (bind_Return _ _ _ _ _ (multi_subscript_present _ _ _ _ Ht)).

Lemma add_event_unconfigured request w :
  Events.COLLECTION w = Events.Thrower ->
  complete_form request ->
  Events.add_event request w = (Return Events.unavailable, w).
Proof.
  intros Hc Hf.
  destruct (complete_form_values _ Hf) as (n & d & a & t & Hn & Hd & Ha & Ht).
  run_form Hn Hd Ha Ht.
  unfold bind, Events.datetime_utcnow, Events.app_config_COLLECTION.
  rewrite Hc. reflexivity.
Qed.

Lemma add_event_configured request w n d a t :
  Events.COLLECTION w = Events.all_events ->
  multi_get (form request) "event_name" = Some n ->
  multi_get (form request) "description" = Some d ->
  multi_get (form request) "author_id" = Some a ->
  multi_get (form request) "event_time" = Some t ->
  Events.add_event request w =
  (Return {| status := 201; body := Text "Event added." |},
   Events.with_store w
     (snd (Mongo.insert_one (posted_document n d a t (Events.utcnow w))
             (Events.eventsDB w)))).
Proof.
  intros Hc Hn Hd Ha Ht.
  run_form Hn Hd Ha Ht.
  unfold bind, Events.datetime_utcnow, Events.app_config_COLLECTION.
  rewrite Hc. reflexivity.
Qed.

(** ** Events: the reading routes *)

Lemma get_all_events_unconfigured w :
  Events.COLLECTION w = Events.Thrower ->
  Events.get_all_events w = (Return Events.unavailable, w).
Proof.
  intros Hc.
  unfold Events.get_all_events, try_except, bind, Events.app_config_COLLECTION.
  rewrite Hc. reflexivity.
Qed.

Lemma get_one_event_unconfigured event_id w :
  Events.COLLECTION w = Events.Thrower ->
  Events.get_one_event event_id w = (Return Events.unavailable, w).
Proof.
  intros Hc.
  unfold Events.get_one_event, try_except, bind, Events.app_config_COLLECTION.
  rewrite Hc. reflexivity.
Qed.

Lemma search_event_unconfigured request w search :
  Events.COLLECTION w = Events.Thrower ->
  multi_get (args request) "name" = Some search ->
  Events.search_event request w = (Return Events.unavailable, w).
Proof.
  intros Hc Hn.
  unfold Events.search_event, try_except.
  rewrite (bind_Return _ _ _ _ _ (multi_subscript_present _ _ _ _ Hn)).
  unfold bind, Events.app_config_COLLECTION.
  rewrite Hc. reflexivity.
Qed.

Lemma search_event_without_name request w :
  multi_get (args request) "name" = None ->
  Events.search_event request w =
  (Return {| status := 400; body := Text "Event name was entered incorrectly." |}, w).
Proof.
  intros Hn.
  unfold Events.search_event, try_except.
  rewrite (bind_Raise _ _ _ _ _ (multi_subscript_absent _ _ _ Hn)).
  reflexivity.
Qed.

Lemma wire_envelope cursor :
  json_roundtrip (Events.build_events_dict cursor) =
  envelope (map wire_event cursor).
Proof.
  unfold Events.build_events_dict, envelope.
  cbn [json_roundtrip map].
  rewrite map_map, !length_map.
  reflexivity.
Qed.

Lemma Event_event_dict ev :
  Events.Event (Events.event_dict (Events.Event ev)) = Events.Event ev.
Proof. reflexivity. Qed.

Lemma filter_match_all c (docs : list dict) :
  filter (Mongo.matches c Mongo.match_all) docs = docs.
Proof. induction docs as [|doc docs IH]; simpl; congruence. Qed.

Lemma get_all_events_configured w :
  Events.COLLECTION w = Events.all_events ->
  Events.get_all_events w =
  (Return (jsonify (envelope
      (map wire_event (Mongo.documents (Mongo.content (Events.eventsDB w)))))),
   Events.with_store w (Mongo.log (Mongo.find_call Mongo.match_all) (Events.eventsDB w))).
Proof.
  intros Hc.
  unfold Events.get_all_events, try_except, bind, Events.app_config_COLLECTION.
  rewrite Hc.
  cbn [Events.getattr ret Events.on_store Mongo.find Mongo.select Mongo.answerable
       Mongo.matches fst snd].
  rewrite wire_envelope, filter_match_all. reflexivity.
Qed.

Lemma get_one_event_configured event_id raw w :
  Events.COLLECTION w = Events.all_events ->
  ObjectId event_id = Return raw ->
  Events.get_one_event event_id w =
  (Return (jsonify (envelope (map wire_event
      (filter (Mongo.has_id raw) (Mongo.documents (Mongo.content (Events.eventsDB w))))))),
   Events.with_store w
     (Mongo.log (Mongo.find_call (Mongo.match_id raw)) (Events.eventsDB w))).
Proof.
  intros Hc Hid.
  unfold Events.get_one_event, try_except, bind, Events.app_config_COLLECTION, lift.
  rewrite Hc, Hid.
  cbn [Events.getattr ret Events.on_store Mongo.find Mongo.select Mongo.answerable
       Mongo.matches fst snd].
  rewrite wire_envelope, map_map. reflexivity.
Qed.

(** ** The store: index creation *)

Lemma create_index_returns keys s :
  fst (Mongo.create_index keys s) = Return tt.
Proof.
  unfold Mongo.create_index.
  destruct (in_dec Mongo.index_keys_dec keys (Mongo.indexes (Mongo.content s)));
    reflexivity.
Qed.

Lemma create_index_keeps keys s :
  Mongo.documents (Mongo.content (snd (Mongo.create_index keys s))) =
    Mongo.documents (Mongo.content s) /\
  Mongo.text_matches (Mongo.content (snd (Mongo.create_index keys s))) =
    Mongo.text_matches (Mongo.content s) /\
  Mongo.next_oid (Mongo.content (snd (Mongo.create_index keys s))) =
    Mongo.next_oid (Mongo.content s) /\
  Mongo.calls (snd (Mongo.create_index keys s)) =
    (Mongo.calls s ++ [Mongo.create_index_call keys])%list.
Proof.
  unfold Mongo.create_index.
  destruct (in_dec Mongo.index_keys_dec keys (Mongo.indexes (Mongo.content s)));
    cbn; auto.
Qed.

Lemma create_index_present keys s :
  In keys (Mongo.indexes (Mongo.content (snd (Mongo.create_index keys s)))).
Proof.
  unfold Mongo.create_index.
  destruct (in_dec Mongo.index_keys_dec keys (Mongo.indexes (Mongo.content s)))
    as [Hin|Hout]; cbn.
  - exact Hin.
  - apply in_or_app. right. left. reflexivity.
Qed.

(** Creating an index that exists changes nothing in the collection. *)
Lemma create_index_again keys s :
  In keys (Mongo.indexes (Mongo.content s)) ->
  Mongo.content (snd (Mongo.create_index keys s)) = Mongo.content s.
Proof.
  intros Hin. unfold Mongo.create_index.
  destruct (in_dec Mongo.index_keys_dec keys (Mongo.indexes (Mongo.content s)))
    as [_|Hout]; [reflexivity|contradiction].
Qed.

Lemma text_index_after_create s :
  existsb Mongo.is_text_index
    (Mongo.indexes (Mongo.content (snd (Mongo.create_index [("name", "text")] s)))) = true.
Proof.
  apply existsb_exists. exists [("name", "text")].
  split; [apply create_index_present|reflexivity].
Qed.

Lemma search_event_configured request w search :
  Events.COLLECTION w = Events.all_events ->
  multi_get (args request) "name" = Some search ->
  Events.search_event request w =
  (Return (jsonify (envelope (map wire_event
      (filter (Mongo.text_matches (Mongo.content (Events.eventsDB w)) search)
              (Mongo.documents (Mongo.content (Events.eventsDB w))))))),
   Events.with_store w
     (Mongo.log (Mongo.find_call (Mongo.match_text search))
        (snd (Mongo.create_index [("name", "text")] (Events.eventsDB w))))).
Proof.
  intros Hc Hn.
  unfold Events.search_event, try_except.
  rewrite (bind_Return _ _ _ _ _ (multi_subscript_present _ _ _ _ Hn)).
  unfold bind, Events.app_config_COLLECTION, Events.text_search_event_name,
    Events.on_store.
  rewrite Hc. cbn [Events.getattr ret fst snd].
  rewrite create_index_returns.
  cbn [Events.with_store Events.COLLECTION Events.eventsDB].
  rewrite Hc. cbn [Events.getattr ret fst snd bind].
  unfold Mongo.find, Mongo.select.
  cbn [fst snd Mongo.answerable Events.with_store Events.eventsDB Events.COLLECTION
       Events.utcnow].
  rewrite text_index_after_create.
  destruct (create_index_keeps [("name", "text")] (Events.eventsDB w)) as (Hd & Hm & _).
  cbv beta iota delta [ret]. rewrite wire_envelope, Hd.
  unfold Mongo.matches. rewrite Hm.
  reflexivity.
Qed.

(** ** Users: the authorization decision *)

Lemma for_user_in_state cursor (w : Users.world) :
  snd (Users.for_user_in cursor w) = w.
Proof.
  induction cursor as [|user rest IH]; [reflexivity|].
  cbn [Users.for_user_in]. unfold bind, subscript.
  destruct (dict_get user "is_organizer") as [v|]; [|reflexivity].
  cbn. destruct (negb (truthy v)); [reflexivity|exact IH].
Qed.

Lemma for_user_in_documents cursor (w : Users.world) :
  Forall user_document cursor ->
  Users.for_user_in cursor w = (Return (forallb organizer_flag cursor), w).
Proof.
  induction 1 as [|user rest [b Hb] _ IH]; [reflexivity|].
  cbn [Users.for_user_in forallb]. unfold bind, subscript, organizer_flag.
  rewrite Hb. cbn. destruct b; cbn; [exact IH|reflexivity].
Qed.

Lemma is_authorized_to_edit_state username (w : Users.world) :
  Mongo.content (snd (Users.is_authorized_to_edit username w)) = Mongo.content w /\
  exists new,
    issued w (snd (Users.is_authorized_to_edit username w)) new /\
    forallb Mongo.is_read new = true.
Proof.
  unfold Users.is_authorized_to_edit, bind, Mongo.count_documents, Mongo.find,
    Mongo.select, issued.
  cbn [Mongo.answerable].
  destruct (Nat.eqb _ 0).
  - cbn. split; [reflexivity|].
    exists [Mongo.count_documents_call (Mongo.match_string "username" username)].
    split; reflexivity.
  - rewrite (surjective_pairing (Users.for_user_in _ _)).
    rewrite for_user_in_state.
    destruct (fst (Users.for_user_in _ _)); cbn.
    all: split; [reflexivity|].
    all: exists [Mongo.count_documents_call (Mongo.match_string "username" username);
                 Mongo.find_call (Mongo.match_string "username" username)].
    all: rewrite <- app_assoc; split; reflexivity.
Qed.

Lemma get_authorization_state request (w : Users.world) :
  Mongo.content (snd (Users.get_authorization request w)) = Mongo.content w /\
  exists new,
    issued w (snd (Users.get_authorization request w)) new /\
    forallb Mongo.is_read new = true.
Proof.
  unfold Users.get_authorization.
  destruct (multi_get (form request) "user_id") as [user|].
  - destruct (is_authorized_to_edit_state user w) as (Hcontent & new & Hnew & Hread).
    unfold bind.
    destruct (Users.is_authorized_to_edit user w) as [[b|e] w'];
      cbn in *; (split; [exact Hcontent|exists new; split; assumption]).
  - cbn. split; [reflexivity|].
    exists []. split; [|reflexivity].
    unfold issued. rewrite app_nil_r. reflexivity.
Qed.

Lemma is_authorized_to_edit_result username (w : Users.world) :
  Forall user_document (matching_users username w) ->
  fst (Users.is_authorized_to_edit username w) =
  Return (match matching_users username w with
          | [] => false
          | _ :: _ => forallb organizer_flag (matching_users username w)
          end).
Proof.
  intros Hdocs.
  unfold Users.is_authorized_to_edit, bind, Mongo.count_documents, Mongo.find,
    Mongo.select.
  cbn [Mongo.answerable Mongo.log Mongo.content Mongo.calls].
  fold (matching_users username w).
  destruct (matching_users username w) as [|user rest] eqn:Em; [reflexivity|].
  cbn [List.length Nat.eqb].
  change (Mongo.content (Mongo.log _ w)) with (Mongo.content w).
  fold (matching_users username w). rewrite Em.
  rewrite (for_user_in_documents _ _ Hdocs). reflexivity.
Qed.

Lemma ObjectId_invalid s :
  (forall raw, ObjectId s <> Return raw) -> ObjectId s = Raise (InvalidId s).
Proof.
  intros H. unfold ObjectId in *.
  destruct (Nat.eqb (String.length s) 24); [|reflexivity].
  destruct (fromhex (list_ascii_of_string s)) as [raw|]; [|reflexivity].
  exfalso. apply (H raw). reflexivity.
Qed.

Lemma ObjectId_length s :
  String.length s <> 24 -> ObjectId s = Raise (InvalidId s).
Proof.
  intros H. unfold ObjectId.
  destruct (Nat.eqb_spec (String.length s) 24); [contradiction|reflexivity].
Qed.

Lemma get_one_event_raises event_id w :
  Events.COLLECTION w = Events.all_events ->
  ObjectId event_id = Raise (InvalidId event_id) ->
  Events.get_one_event event_id w = (Raise (InvalidId event_id), w).
Proof.
  intros Hc Hid.
  unfold Events.get_one_event, try_except, bind, Events.app_config_COLLECTION, lift.
  rewrite Hc, Hid. reflexivity.
Qed.

Lemma wire_event_declared ev : declared_only (wire_event ev).
Proof.
  unfold declared_only, wire_event. cbn [json_roundtrip Events.event_dict map].
  eexists. split; [reflexivity|]. split; [reflexivity|].
  intros k Hk. unfold Events.EVENT_FIELDS in Hk. cbn [dict_get].
  repeat match goal with
         | |- context [String.eqb ?f k] =>
             destruct (String.eqb_spec f k) as [E|_];
               [exfalso; apply Hk; rewrite <- E; simpl; tauto|]
         end.
  reflexivity.
Qed.

Lemma wire_events_declared docs : Forall declared_only (map wire_event docs).
Proof.
  apply Forall_forall. intros v Hv.
  apply in_map_iff in Hv. destruct Hv as (ev & <- & _).
  apply wire_event_declared.
Qed.

(** ** Events: the answers as tables *)

Lemma form_complete_values request :
  form_complete request = true ->
  exists n d a t,
    multi_get (form request) "event_name" = Some n /\
    multi_get (form request) "description" = Some d /\
    multi_get (form request) "author_id" = Some a /\
    multi_get (form request) "event_time" = Some t.
Proof.
  unfold form_complete, required_form_fields, present. cbn [forallb].
  destruct (multi_get (form request) "event_name") as [n|]; [|discriminate].
  destruct (multi_get (form request) "description") as [d|]; [|discriminate].
  destruct (multi_get (form request) "author_id") as [a|]; [|discriminate].
  destruct (multi_get (form request) "event_time") as [t|]; [|discriminate].
  intros _. exists n, d, a, t. auto.
Qed.

Lemma form_incomplete_answer request w :
  form_complete request = false ->
  Events.add_event request w =
  (Return {| status := 400; body := Text "Event info was entered incorrectly." |}, w).
Proof.
  unfold form_complete, required_form_fields, present. cbn [forallb].
  unfold Events.add_event, try_except, bind, multi_subscript.
  destruct (multi_get (form request) "event_name"); [|reflexivity].
  destruct (multi_get (form request) "description"); [|reflexivity].
  destruct (multi_get (form request) "author_id"); [|reflexivity].
  destruct (multi_get (form request) "event_time"); [|reflexivity].
  discriminate.
Qed.

Lemma complete_form_of_values request n d a t :
  multi_get (form request) "event_name" = Some n ->
  multi_get (form request) "description" = Some d ->
  multi_get (form request) "author_id" = Some a ->
  multi_get (form request) "event_time" = Some t ->
  complete_form request.
Proof.
  intros Hn Hd Ha Ht f Hin. unfold required_form_fields in Hin. simpl in Hin.
  destruct Hin as [<-|[<-|[<-|[<-|[]]]]]; congruence.
Qed.






Lemma get_one_event_refused event_id e w :
  Events.COLLECTION w = Events.all_events ->
  ObjectId event_id = Raise e ->
  Events.get_one_event event_id w = (Raise (InvalidId event_id), w).
Proof.
  intros Hc Hid. apply get_one_event_raises; [exact Hc|].
  apply ObjectId_invalid. intros raw Hraw. congruence.
Qed.


Lemma add_event_unconfigured_table request w :
  Events.COLLECTION w = Events.Thrower ->
  Events.add_event request w =
  (Return (if form_complete request
           then Events.unavailable
           else {| status := 400; body := Text "Event info was entered incorrectly." |}),
   w).
Proof.
  intros Hc.
  destruct (form_complete request) eqn:Hf.
  - destruct (form_complete_values _ Hf) as (n & d & a & t & Hn & Hd & Ha & Ht).
    apply (add_event_unconfigured _ _ Hc (complete_form_of_values _ _ _ _ _ Hn Hd Ha Ht)).
  - apply (form_incomplete_answer _ _ Hf).
Qed.

Lemma search_event_unconfigured_table request w :
  Events.COLLECTION w = Events.Thrower ->
  Events.search_event request w =
  (Return match multi_get (args request) "name" with
          | Some _ => Events.unavailable
          | None => {| status := 400; body := Text "Event name was entered incorrectly." |}
          end,
   w).
Proof.
  intros Hc.
  destruct (multi_get (args request) "name") as [search|] eqn:Hn.
  - apply (search_event_unconfigured _ _ _ Hc Hn).
  - apply (search_event_without_name _ _ Hn).
Qed.

Lemma get_authorization_table request (w : Users.world) :
  fst (Users.get_authorization request w) =
  match multi_get (form request) "user_id" with
  | None =>
      Return {| status := 200;
                body := Json (VDict [("error",
                  VStr "You must supply a 'user_id' POST parameter!")]) |}
  | Some user =>
      match fst (Users.is_authorized_to_edit user w) with
      | Return authorized =>
          Return {| status := 200;
                    body := Json (VDict [("edit_access", VBool authorized)]) |}
      | Raise e => Raise e
      end
  end.
Proof.
  unfold Users.get_authorization.
  destruct (multi_get (form request) "user_id") as [user|]; [|reflexivity].
  unfold bind.
  destruct (Users.is_authorized_to_edit user w) as [[b|e] w']; reflexivity.
Qed.


(** * The claims *)

(** C1 (as amended).  With the events store handle unconfigured, that is
    [connect_to_mongodb] found no [MONGODB_URI] and handed back the
    [Thrower], every answer of the events routes leaves the world as it
    was, so no store call is issued, and: list-all and get-one-by-id
    answer status 500 with the text "Events database was undefined.";
    search answers that 500 when the [name] parameter is present and
    400 when it is not; add answers that 500 when the four required
    form fields are present and 400 when one is missing.  The users
    authorization route has no such answer: without [user_id] it
    answers 200 with an error object, with it 200 with the decision,
    and an exception of the decision leaves the route as it is. *)
Theorem unconfigured_store_unavailable w event_id request request_u (u : Users.world) :
  Events.COLLECTION w = Events.connect_to_mongodb None ->
  Events.get_all_events w = (Return Events.unavailable, w) /\
  Events.get_one_event event_id w = (Return Events.unavailable, w) /\
  Events.search_event request w =
    (Return match multi_get (args request) "name" with
            | Some _ => Events.unavailable
            | None =>
                {| status := 400; body := Text "Event name was entered incorrectly." |}
            end,
     w) /\
  Events.add_event request w =
    (Return (if form_complete request
             then Events.unavailable
             else {| status := 400; body := Text "Event info was entered incorrectly." |}),
     w) /\
  Events.unavailable =
    {| status := 500; body := Text "Events database was undefined." |} /\
  fst (Users.get_authorization request_u u) =
    match multi_get (form request_u) "user_id" with
    | None =>
        Return {| status := 200;
                  body := Json (VDict [("error",
                    VStr "You must supply a 'user_id' POST parameter!")]) |}
    | Some user =>
        match fst (Users.is_authorized_to_edit user u) with
        | Return authorized =>
            Return {| status := 200;
                      body := Json (VDict [("edit_access", VBool authorized)]) |}
        | Raise e => Raise e
        end
    end.
Proof.
  intros Hc. cbn [Events.connect_to_mongodb] in Hc.
  split; [apply get_all_events_unconfigured, Hc|].
  split; [apply get_one_event_unconfigured, Hc|].
  split; [apply search_event_unconfigured_table, Hc|].
  split; [apply add_event_unconfigured_table, Hc|].
  split; [reflexivity|].
  apply get_authorization_table.
Qed.

Lemma unconfigured_store_unavailable_witness :
  (Events.get_all_events unconfigured_world =
     (Return Events.unavailable, unconfigured_world) /\
   Events.get_one_event "5d2f2d4b1c9d440000a1b2c3" unconfigured_world =
     (Return Events.unavailable, unconfigured_world) /\
   Events.search_event complete_request unconfigured_world =
     (Return match multi_get (args complete_request) "name" with
             | Some _ => Events.unavailable
             | None =>
                 {| status := 400; body := Text "Event name was entered incorrectly." |}
             end,
      unconfigured_world) /\
   Events.add_event complete_request unconfigured_world =
     (Return (if form_complete complete_request
              then Events.unavailable
              else {| status := 400; body := Text "Event info was entered incorrectly." |}),
      unconfigured_world) /\
   Events.unavailable =
     {| status := 500; body := Text "Events database was undefined." |} /\
   fst (Users.get_authorization (authorization_request "ada") sample_users) =
     match multi_get (form (authorization_request "ada")) "user_id" with
     | None =>
         Return {| status := 200;
                   body := Json (VDict [("error",
                     VStr "You must supply a 'user_id' POST parameter!")]) |}
     | Some user =>
         match fst (Users.is_authorized_to_edit user sample_users) with
         | Return authorized =>
             Return {| status := 200;
                       body := Json (VDict [("edit_access", VBool authorized)]) |}
         | Raise e => Raise e
         end
     end) /\
  form_complete complete_request = true /\
  multi_get (args complete_request) "name" = Some "Launch" /\
  fst (Users.get_authorization (authorization_request "ada") sample_users) =
    Return {| status := 200; body := Json (VDict [("edit_access", VBool true)]) |}.
Proof.
  split.
  - apply (unconfigured_store_unavailable unconfigured_world "5d2f2d4b1c9d440000a1b2c3"
             complete_request (authorization_request "ada") sample_users).
    reflexivity.
  - repeat split; reflexivity.
Defined.

(** C1, as stated, fails: with the handle unconfigured, a search request
    without the [name] parameter is answered 400, not 500. *)
Lemma unconfigured_search_without_name :
  Events.COLLECTION unconfigured_world = Events.connect_to_mongodb None /\
  Events.search_event empty_request unconfigured_world =
    (Return {| status := 400; body := Text "Event name was entered incorrectly." |},
     unconfigured_world) /\
  fst (Events.search_event empty_request unconfigured_world) <>
    Return {| status := 500; body := Text "Events database was undefined." |}.
Proof.
  split; [reflexivity|]. split; [reflexivity|]. discriminate.
Qed.

(** C2.  On a users collection whose documents matching the username
    have the documented shape (a boolean [is_organizer]), the
    authorization decision is [false] when no document matches and
    otherwise the conjunction of the [is_organizer] flags of all the
    matching documents. *)
Theorem is_authorized_to_edit_decision username (w : Users.world) :
  Forall user_document (matching_users username w) ->
  fst (Users.is_authorized_to_edit username w) =
  Return (match matching_users username w with
          | [] => false
          | _ :: _ => forallb organizer_flag (matching_users username w)
          end).
Proof. apply is_authorized_to_edit_result. Qed.

Lemma is_authorized_to_edit_decision_witness :
  fst (Users.is_authorized_to_edit "ada" sample_users) =
  Return (match matching_users "ada" sample_users with
          | [] => false
          | _ :: _ => forallb organizer_flag (matching_users "ada" sample_users)
          end).
Proof.
  apply (is_authorized_to_edit_decision "ada" sample_users).
  vm_compute. repeat constructor; exists true; reflexivity.
Defined.

(** C3.  For a request to add an event that carries the four required
    fields, handled with a configured store: exactly one store call is
    issued, the insert, and the document handed to it has a
    [created_at] equal to the text of the server's UTC clock at handling
    time, which has the shape [YYYY-MM-DD HH:MM:SS].  The value depends
    on the clock alone, so nothing that the client sends, a [created_at]
    form field included, reaches the stored [created_at]. *)
Theorem add_event_created_at request w :
  valid_datetime (Events.utcnow w) ->
  Events.COLLECTION w = Events.all_events ->
  complete_form request ->
  exists doc,
    fst (Events.add_event request w) =
      Return {| status := 201; body := Text "Event added." |} /\
    issued (Events.eventsDB w) (Events.eventsDB (snd (Events.add_event request w)))
      [Mongo.insert_one_call doc] /\
    Mongo.documents (Mongo.content (Events.eventsDB (snd (Events.add_event request w)))) =
      (Mongo.documents (Mongo.content (Events.eventsDB w)) ++
       [("_id", VObjectId (to_bytes 12 (Mongo.next_oid (Mongo.content (Events.eventsDB w)))))
        :: doc])%list /\
    dict_get doc "created_at" = Some (VStr (isoformat_seconds (Events.utcnow w))) /\
    timestamp_shape (isoformat_seconds (Events.utcnow w)) = true.
Proof.
  intros Hclock Hc Hf.
  destruct (complete_form_values _ Hf) as (n & d & a & t & Hn & Hd & Ha & Ht).
  exists (posted_document n d a t (Events.utcnow w)).
  rewrite (add_event_configured _ _ _ _ _ _ Hc Hn Hd Ha Ht).
  repeat split; try reflexivity.
  apply isoformat_seconds_shape, Hclock.
Qed.

Lemma add_event_created_at_witness :
  exists doc,
    fst (Events.add_event complete_request configured_world) =
      Return {| status := 201; body := Text "Event added." |} /\
    issued (Events.eventsDB configured_world)
      (Events.eventsDB (snd (Events.add_event complete_request configured_world)))
      [Mongo.insert_one_call doc] /\
    Mongo.documents
      (Mongo.content
         (Events.eventsDB (snd (Events.add_event complete_request configured_world)))) =
      (Mongo.documents (Mongo.content (Events.eventsDB configured_world)) ++
       [("_id", VObjectId
                  (to_bytes 12
                     (Mongo.next_oid (Mongo.content (Events.eventsDB configured_world)))))
        :: doc])%list /\
    dict_get doc "created_at" =
      Some (VStr (isoformat_seconds (Events.utcnow configured_world))) /\
    timestamp_shape (isoformat_seconds (Events.utcnow configured_world)) = true.
Proof.
  apply (add_event_created_at complete_request configured_world).
  - unfold valid_datetime. simpl. lia.
  - reflexivity.
  - intros f Hin. simpl in Hin.
    destruct Hin as [<-|[<-|[<-|[<-|[]]]]]; discriminate.
Defined.

(** C4.  [build_events_dict] wraps the documents of a cursor in
    [{"events": L, "num_events": N}] with [N] the length of [L], one
    entry per document; and with a configured store the bodies answered
    by list-all, by search (name present) and by get-one-by-id (valid
    identifier) are such envelopes. *)
Theorem envelope_count w cursor request search event_id raw :
  Events.COLLECTION w = Events.all_events ->
  multi_get (args request) "name" = Some search ->
  ObjectId event_id = Return raw ->
  (exists L, Events.build_events_dict cursor =
               VDict [("events", VList L);
                      ("num_events", VInt (Z.of_nat (List.length L)))] /\
             List.length L = List.length cursor) /\
  (exists L, fst (Events.get_all_events w) =
               Return {| status := 200; body := Json (envelope L) |}) /\
  (exists L, fst (Events.search_event request w) =
               Return {| status := 200; body := Json (envelope L) |}) /\
  (exists L, fst (Events.get_one_event event_id w) =
               Return {| status := 200; body := Json (envelope L) |}).
Proof.
  intros Hc Hn Hid.
  split.
  { eexists. split; [reflexivity|]. apply length_map. }
  split; [|split].
  - rewrite (get_all_events_configured _ Hc). eexists. reflexivity.
  - rewrite (search_event_configured _ _ _ Hc Hn). eexists. reflexivity.
  - rewrite (get_one_event_configured _ _ _ Hc Hid). eexists. reflexivity.
Qed.

Lemma envelope_count_witness :
  (exists L, Events.build_events_dict (Mongo.documents (Mongo.content sample_events)) =
               VDict [("events", VList L);
                      ("num_events", VInt (Z.of_nat (List.length L)))] /\
             List.length L = List.length (Mongo.documents (Mongo.content sample_events))) /\
  (exists L, fst (Events.get_all_events configured_world) =
               Return {| status := 200; body := Json (envelope L) |}) /\
  (exists L, fst (Events.search_event complete_request configured_world) =
               Return {| status := 200; body := Json (envelope L) |}) /\
  (exists L, fst (Events.get_one_event "000000000000000000000007" configured_world) =
               Return {| status := 200; body := Json (envelope L) |}).
Proof.
  apply (envelope_count configured_world
           (Mongo.documents (Mongo.content sample_events))
           complete_request "Launch" "000000000000000000000007" (to_bytes 12 7)).
  - reflexivity.
  - reflexivity.
  - vm_compute. reflexivity.
Defined.

(** C5.  A request to add an event that lacks one of the required form
    fields ([event_name], [description], [author_id], [event_time]) is
    answered with status 400 and the message of the handler, and the
    world is left as it was: no store call is issued and no document is
    inserted.  This holds whatever the state of the store handle. *)
Theorem add_event_missing_field request w f :
  In f required_form_fields ->
  multi_get (form request) f = None ->
  Events.add_event request w =
  (Return {| status := 400; body := Text "Event info was entered incorrectly." |}, w).
Proof.
  intros Hin Hnone.
  unfold Events.add_event, try_except, bind, multi_subscript.
  destruct (multi_get (form request) "event_name") eqn:En; [|reflexivity].
  destruct (multi_get (form request) "description") eqn:Ed; [|reflexivity].
  destruct (multi_get (form request) "author_id") eqn:Ea; [|reflexivity].
  destruct (multi_get (form request) "event_time") eqn:Et; [|reflexivity].
  exfalso. unfold required_form_fields in Hin. simpl in Hin.
  destruct Hin as [<-|[<-|[<-|[<-|[]]]]]; congruence.
Qed.

Lemma add_event_missing_field_witness :
  Events.add_event request_without_author configured_world =
  (Return {| status := 400; body := Text "Event info was entered incorrectly." |},
   configured_world).
Proof.
  apply (add_event_missing_field request_without_author configured_world "author_id").
  - simpl. auto.
  - reflexivity.
Defined.

(** C6.  The add-or-update-user operation issues no store call, but it
    does not answer with the canned user either: on every request the
    lookup of [getJSON] on the request raises [AttributeError] at line
    61, before the body is read, and the handler has no clause that
    catches it.  The canned user object of lines 68-71 is never
    reached. *)
Theorem add_update_user_raises request (w : Users.world) :
  Users.add_update_user request w = (Raise (AttributeError "getJSON"), w).
Proof. reflexivity. Qed.

(** C7.  On a search with the [name] parameter present, the calls issued
    on the store are, in this order, the creation of the text index on
    [name] and then the text search; with an unconfigured handle neither
    is issued.  The index creation is idempotent: creating the index a
    second time leaves the collection as the first creation left it, and
    a second search leaves the collection as the first search left it
    and gets the same answer; the documents are never touched. *)
Theorem search_event_index_first request w search :
  multi_get (args request) "name" = Some search ->
  issued (Events.eventsDB w) (Events.eventsDB (snd (Events.search_event request w)))
    (match Events.COLLECTION w with
     | Events.all_events =>
         [Mongo.create_index_call [("name", "text")];
          Mongo.find_call (Mongo.match_text search)]
     | Events.Thrower => []
     end) /\
  Mongo.documents (Mongo.content (Events.eventsDB (snd (Events.search_event request w)))) =
    Mongo.documents (Mongo.content (Events.eventsDB w)) /\
  Mongo.content
    (Events.eventsDB
       (snd (Events.search_event request (snd (Events.search_event request w))))) =
    Mongo.content (Events.eventsDB (snd (Events.search_event request w))) /\
  fst (Events.search_event request (snd (Events.search_event request w))) =
    fst (Events.search_event request w) /\
  (forall s,
      Mongo.content
        (snd (Mongo.create_index [("name", "text")]
                (snd (Mongo.create_index [("name", "text")] s)))) =
      Mongo.content (snd (Mongo.create_index [("name", "text")] s))).
Proof.
  intros Hn.
  assert (Hagain : forall s,
             Mongo.content
               (snd (Mongo.create_index [("name", "text")]
                       (snd (Mongo.create_index [("name", "text")] s)))) =
             Mongo.content (snd (Mongo.create_index [("name", "text")] s))).
  { intros s. apply create_index_again, create_index_present. }
  destruct (Events.COLLECTION w) eqn:Hc.
  - rewrite (search_event_unconfigured _ _ _ Hc Hn). cbn [fst snd].
    rewrite (search_event_unconfigured _ _ _ Hc Hn). cbn [fst snd].
    repeat split; auto.
    unfold issued. rewrite app_nil_r. reflexivity.
  - rewrite (search_event_configured _ _ _ Hc Hn). cbn [fst snd].
    set (s1 := snd (Mongo.create_index [("name", "text")] (Events.eventsDB w))).
    set (w1 := Events.with_store w
                 (Mongo.log (Mongo.find_call (Mongo.match_text search)) s1)).
    assert (Hc1 : Events.COLLECTION w1 = Events.all_events) by exact Hc.
    rewrite (search_event_configured _ _ _ Hc1 Hn). cbn [fst snd].
    destruct (create_index_keeps [("name", "text")] (Events.eventsDB w))
      as (Hd & Hm & _ & Hcalls).
    fold s1 in Hd, Hm, Hcalls.
    assert (Hin : In [("name", "text")]
                    (Mongo.indexes (Mongo.content (Events.eventsDB w1)))).
    { apply (create_index_present [("name", "text")] (Events.eventsDB w)). }
    split; [|split; [|split; [|split]]].
    + unfold issued. cbn. fold s1. rewrite Hcalls, <- app_assoc. reflexivity.
    + exact Hd.
    + cbn [Events.with_store Events.eventsDB Mongo.log Mongo.content].
      apply (create_index_again _ _ Hin).
    + change (Mongo.content (Events.eventsDB w1)) with (Mongo.content s1).
      rewrite Hd, Hm. reflexivity.
    + exact Hagain.
Qed.

Lemma search_event_index_first_witness :
  issued (Events.eventsDB configured_world)
    (Events.eventsDB (snd (Events.search_event complete_request configured_world)))
    (match Events.COLLECTION configured_world with
     | Events.all_events =>
         [Mongo.create_index_call [("name", "text")];
          Mongo.find_call (Mongo.match_text "Launch")]
     | Events.Thrower => []
     end) /\
  Mongo.documents
    (Mongo.content
       (Events.eventsDB (snd (Events.search_event complete_request configured_world)))) =
    Mongo.documents (Mongo.content (Events.eventsDB configured_world)) /\
  Mongo.content
    (Events.eventsDB
       (snd (Events.search_event complete_request
               (snd (Events.search_event complete_request configured_world))))) =
    Mongo.content
      (Events.eventsDB (snd (Events.search_event complete_request configured_world))) /\
  fst (Events.search_event complete_request
         (snd (Events.search_event complete_request configured_world))) =
    fst (Events.search_event complete_request configured_world) /\
  (forall s,
      Mongo.content
        (snd (Mongo.create_index [("name", "text")]
                (snd (Mongo.create_index [("name", "text")] s)))) =
      Mongo.content (snd (Mongo.create_index [("name", "text")] s))).
Proof.
  apply (search_event_index_first complete_request configured_world "Launch").
  reflexivity.
Defined.

Lemma wire_event_fields ev :
  exists d,
    wire_event ev = VDict d /\
    dict_keys d = Events.EVENT_FIELDS /\
    (forall k, ~ In k Events.EVENT_FIELDS -> dict_get d k = None) /\
    (forall k, In k Events.EVENT_FIELDS ->
               dict_get d k = Some (json_roundtrip (Events.kwarg ev k))).
Proof.
  destruct (wire_event_declared ev) as (d & Hd & Hkeys & Hundeclared).
  exists d. repeat split; try assumption.
  intros k Hk. unfold wire_event in Hd.
  cbn [json_roundtrip Events.event_dict map] in Hd.
  injection Hd as <-.
  unfold Events.EVENT_FIELDS in Hk. simpl in Hk.
  destruct Hk as [<-|[<-|[<-|[<-|[<-|[]]]]]]; reflexivity.
Qed.

(** C8.  With a configured store, the list answered by list-all, by
    search (name present) and by get-one-by-id (valid identifier) holds,
    for each stored document that the operation selects and in store
    order, that document passed through the field set of [Event] and
    then through the JSON conversion: a document with exactly the
    declared fields, each bound to what the stored document binds it to
    ([None] when it has no such field), in which every field of the
    stored document that the data model does not declare is absent. *)
Theorem wire_documents_declared_only w request search event_id raw :
  Events.COLLECTION w = Events.all_events ->
  multi_get (args request) "name" = Some search ->
  ObjectId event_id = Return raw ->
  fst (Events.get_all_events w) =
    Return {| status := 200;
              body := Json (envelope (map wire_event
                (Mongo.documents (Mongo.content (Events.eventsDB w))))) |} /\
  fst (Events.search_event request w) =
    Return {| status := 200;
              body := Json (envelope (map wire_event
                (filter (Mongo.text_matches (Mongo.content (Events.eventsDB w)) search)
                        (Mongo.documents (Mongo.content (Events.eventsDB w)))))) |} /\
  fst (Events.get_one_event event_id w) =
    Return {| status := 200;
              body := Json (envelope (map wire_event
                (filter (Mongo.has_id raw)
                        (Mongo.documents (Mongo.content (Events.eventsDB w)))))) |} /\
  (forall ev, exists d,
      wire_event ev = VDict d /\
      dict_keys d = Events.EVENT_FIELDS /\
      (forall k, ~ In k Events.EVENT_FIELDS -> dict_get d k = None) /\
      (forall k, In k Events.EVENT_FIELDS ->
                 dict_get d k = Some (json_roundtrip (Events.kwarg ev k)))).
Proof.
  intros Hc Hn Hid.
  split; [rewrite (get_all_events_configured _ Hc); reflexivity|].
  split; [rewrite (search_event_configured _ _ _ Hc Hn); reflexivity|].
  split; [rewrite (get_one_event_configured _ _ _ Hc Hid); reflexivity|].
  apply wire_event_fields.
Qed.

Lemma wire_documents_declared_only_witness :
  fst (Events.get_all_events configured_world) =
    Return {| status := 200;
              body := Json (envelope (map wire_event
                (Mongo.documents (Mongo.content (Events.eventsDB configured_world))))) |} /\
  fst (Events.search_event complete_request configured_world) =
    Return {| status := 200;
              body := Json (envelope (map wire_event
                (filter (Mongo.text_matches
                           (Mongo.content (Events.eventsDB configured_world)) "Launch")
                        (Mongo.documents
                           (Mongo.content (Events.eventsDB configured_world)))))) |} /\
  fst (Events.get_one_event "000000000000000000000007" configured_world) =
    Return {| status := 200;
              body := Json (envelope (map wire_event
                (filter (Mongo.has_id (to_bytes 12 7))
                        (Mongo.documents
                           (Mongo.content (Events.eventsDB configured_world)))))) |} /\
  (forall ev, exists d,
      wire_event ev = VDict d /\
      dict_keys d = Events.EVENT_FIELDS /\
      (forall k, ~ In k Events.EVENT_FIELDS -> dict_get d k = None) /\
      (forall k, In k Events.EVENT_FIELDS ->
                 dict_get d k = Some (json_roundtrip (Events.kwarg ev k)))).
Proof.
  apply (wire_documents_declared_only configured_world complete_request "Launch"
           "000000000000000000000007" (to_bytes 12 7)).
  - reflexivity.
  - reflexivity.
  - vm_compute. reflexivity.
Defined.

(** C9.  The authorization decision and the authorization route leave
    the users collection as it was, and every store call that they issue
    is a read ([count_documents] or [find]). *)
Theorem authorization_read_only username request (w : Users.world) :
  (Mongo.content (snd (Users.is_authorized_to_edit username w)) = Mongo.content w /\
   exists new,
     issued w (snd (Users.is_authorized_to_edit username w)) new /\
     forallb Mongo.is_read new = true) /\
  (Mongo.content (snd (Users.get_authorization request w)) = Mongo.content w /\
   exists new,
     issued w (snd (Users.get_authorization request w)) new /\
     forallb Mongo.is_read new = true).
Proof.
  split.
  - apply is_authorized_to_edit_state.
  - apply get_authorization_state.
Qed.

(** C10 (as amended).  For an [event_id] that [ObjectId] refuses, the
    get-one-by-id operation with a configured store raises [InvalidId]
    out of the handler, before any store call; with an unconfigured
    store the lookup of [find] on the handle fails first and the answer
    is the 500 of the unavailable store. *)
Theorem get_one_event_invalid_id event_id w :
  (forall raw, ObjectId event_id <> Return raw) ->
  Events.get_one_event event_id w =
  match Events.COLLECTION w with
  | Events.all_events => (Raise (InvalidId event_id), w)
  | Events.Thrower => (Return Events.unavailable, w)
  end.
Proof.
  intros Hid. apply ObjectId_invalid in Hid.
  destruct (Events.COLLECTION w) eqn:Hc.
  - apply get_one_event_unconfigured, Hc.
  - apply get_one_event_raises; assumption.
Qed.

Lemma get_one_event_invalid_id_witness :
  Events.get_one_event "not-an-object-id" configured_world =
  match Events.COLLECTION configured_world with
  | Events.all_events => (Raise (InvalidId "not-an-object-id"), configured_world)
  | Events.Thrower => (Return Events.unavailable, configured_world)
  end.
Proof.
  apply (get_one_event_invalid_id "not-an-object-id" configured_world).
  intros raw. vm_compute. discriminate.
Defined.

(** C10, as stated, fails: with the store unconfigured, an identifier
    that [ObjectId] refuses gets the 500 of the unavailable store. *)
Lemma get_one_event_invalid_id_unconfigured :
  (forall raw, ObjectId "not-an-object-id" <> Return raw) /\
  Events.get_one_event "not-an-object-id" unconfigured_world =
    (Return {| status := 500; body := Text "Events database was undefined." |},
     unconfigured_world).
Proof.
  split; [|reflexivity].
  intros raw. vm_compute. discriminate.
Qed.

(** ** Concrete runs *)

Example authorization_of_an_organizer :
  fst (Users.is_authorized_to_edit "ada" sample_users) = Return true.
Proof. reflexivity. Qed.

Example authorization_of_a_participant :
  fst (Users.is_authorized_to_edit "bob" sample_users) = Return false.
Proof. reflexivity. Qed.

Example authorization_of_a_stranger :
  Users.is_authorized_to_edit "eve" sample_users =
  (Return false,
   Mongo.log (Mongo.count_documents_call (Mongo.match_string "username" "eve"))
     sample_users).
Proof. reflexivity. Qed.

Example add_then_list :
  fst (Events.get_all_events (snd (Events.add_event complete_request configured_world))) =
  Return
    {| status := 200;
       body :=
         Json (VDict
           [("events",
             VList
               [VDict [("name", VStr "Launch"); ("description", VStr "kickoff");
                       ("author", VStr "u1");
                       ("event_time", VStr "2024-01-01T10:00:00");
                       ("created_at", VStr "2023-12-31 08:00:00")];
                VDict [("name", VStr "Launch"); ("description", VStr "kickoff");
                       ("author", VStr "u1");
                       ("event_time", VStr "2024-01-01T10:00:00");
                       ("created_at", VStr "2024-01-09 00:59:07")]]);
            ("num_events", VInt 2)]) |}.
Proof. reflexivity. Qed.

Example ObjectId_skips_blanks :
  ObjectId "5d 2f 2d 4b 1c 9d 44 00 " = Return [93; 47; 45; 75; 28; 157; 68; 0]%N.
Proof. reflexivity. Qed.

Example ObjectId_refuses_a_letter :
  ObjectId "5d2f2d4b1c9d440000a1b2cg" = Raise (InvalidId "5d2f2d4b1c9d440000a1b2cg").
Proof. reflexivity. Qed.

(** * Further properties of the two services *)

(** ** Events: which answer, and when *)





(** ** Events: what the routes keep *)

(** X4.  No route of the events service replaces the store handle: the
    handle after a request is the handle before it, so an unconfigured
    service stays unconfigured and a configured one stays configured. *)
Theorem handle_invariant w request event_id :
  Events.COLLECTION (snd (Events.get_all_events w)) = Events.COLLECTION w /\
  Events.COLLECTION (snd (Events.search_event request w)) = Events.COLLECTION w /\
  Events.COLLECTION (snd (Events.add_event request w)) = Events.COLLECTION w /\
  Events.COLLECTION (snd (Events.get_one_event event_id w)) = Events.COLLECTION w.
Proof.
  destruct (Events.COLLECTION w) eqn:Hc.
  - (* the Thrower *)
    split; [rewrite (get_all_events_unconfigured _ Hc); exact Hc|].
    split.
    { destruct (multi_get (args request) "name") as [search|] eqn:Hn.
      - rewrite (search_event_unconfigured _ _ _ Hc Hn). exact Hc.
      - rewrite (search_event_without_name _ _ Hn). exact Hc. }
    split.
    { destruct (form_complete request) eqn:Hf.
      - destruct (form_complete_values _ Hf) as (n & d & a & t & Hn & Hd & Ha & Ht).
        rewrite (add_event_unconfigured _ _ Hc
                   (complete_form_of_values _ _ _ _ _ Hn Hd Ha Ht)).
        exact Hc.
      - rewrite (form_incomplete_answer _ _ Hf). exact Hc. }
    rewrite (get_one_event_unconfigured _ _ Hc). exact Hc.
  - (* the collection *)
    split; [rewrite (get_all_events_configured _ Hc); exact Hc|].
    split.
    { destruct (multi_get (args request) "name") as [search|] eqn:Hn.
      - rewrite (search_event_configured _ _ _ Hc Hn). exact Hc.
      - rewrite (search_event_without_name _ _ Hn). exact Hc. }
    split.
    { destruct (form_complete request) eqn:Hf.
      - destruct (form_complete_values _ Hf) as (n & d & a & t & Hn & Hd & Ha & Ht).
        rewrite (add_event_configured _ _ _ _ _ _ Hc Hn Hd Ha Ht). exact Hc.
      - rewrite (form_incomplete_answer _ _ Hf). exact Hc. }
    destruct (ObjectId event_id) as [raw|e] eqn:Hid.
    + rewrite (get_one_event_configured _ _ _ Hc Hid). exact Hc.
    + rewrite (get_one_event_refused _ _ _ Hc Hid). exact Hc.
Qed.

Lemma issued_nothing s : issued s s [].
Proof. unfold issued. rewrite app_nil_r. reflexivity. Qed.

Lemma issued_one s c : issued s (Mongo.log c s) [c].
Proof. reflexivity. Qed.

(** X5.  The routes list-all and get-one-by-id never change the
    collection (documents, indexes, next identifier), for every world
    and every identifier; each issues at most one store call, a [find];
    and asking for the list a second time gets the same answer. *)
Theorem reading_routes_read_only w event_id :
  (Mongo.content (Events.eventsDB (snd (Events.get_all_events w))) =
     Mongo.content (Events.eventsDB w) /\
   exists new,
     issued (Events.eventsDB w) (Events.eventsDB (snd (Events.get_all_events w))) new /\
     forallb Mongo.is_read new = true /\ List.length new <= 1) /\
  (Mongo.content (Events.eventsDB (snd (Events.get_one_event event_id w))) =
     Mongo.content (Events.eventsDB w) /\
   exists new,
     issued (Events.eventsDB w)
       (Events.eventsDB (snd (Events.get_one_event event_id w))) new /\
     forallb Mongo.is_read new = true /\ List.length new <= 1) /\
  fst (Events.get_all_events (snd (Events.get_all_events w))) =
    fst (Events.get_all_events w).
Proof.
  destruct (Events.COLLECTION w) eqn:Hc.
  - rewrite (get_all_events_unconfigured _ Hc), (get_one_event_unconfigured _ _ Hc).
    cbn [fst snd]. rewrite (get_all_events_unconfigured _ Hc).
    repeat split; try reflexivity.
    all: exists []; repeat split; auto using issued_nothing.
  - rewrite (get_all_events_configured _ Hc). cbn [fst snd].
    split; [|split].
    + split; [reflexivity|].
      exists [Mongo.find_call Mongo.match_all]. repeat split; auto.
    + destruct (ObjectId event_id) as [raw|e] eqn:Hid.
      * rewrite (get_one_event_configured _ _ _ Hc Hid). cbn [fst snd].
        split; [reflexivity|].
        exists [Mongo.find_call (Mongo.match_id raw)]. repeat split; auto.
      * rewrite (get_one_event_refused _ _ _ Hc Hid). cbn [fst snd].
        split; [reflexivity|].
        exists []. repeat split; auto using issued_nothing.
    + rewrite get_all_events_configured by exact Hc. reflexivity.
Qed.

(** X6.  With a configured store, whatever search (name present) and
    get-one-by-id (valid identifier) answer is part of what list-all
    answers in the same state: every event of their lists is an event
    of the full list, and their counts are no larger. *)
Theorem selected_within_list_all w request search event_id raw :
  Events.COLLECTION w = Events.all_events ->
  multi_get (args request) "name" = Some search ->
  ObjectId event_id = Return raw ->
  exists All Found One,
    fst (Events.get_all_events w) = Return {| status := 200; body := Json (envelope All) |} /\
    fst (Events.search_event request w) =
      Return {| status := 200; body := Json (envelope Found) |} /\
    fst (Events.get_one_event event_id w) =
      Return {| status := 200; body := Json (envelope One) |} /\
    incl Found All /\ List.length Found <= List.length All /\
    incl One All /\ List.length One <= List.length All.
Proof.
  intros Hc Hn Hid.
  rewrite (get_all_events_configured _ Hc), (search_event_configured _ _ _ Hc Hn),
    (get_one_event_configured _ _ _ Hc Hid).
  do 3 eexists.
  split; [reflexivity|]. split; [reflexivity|]. split; [reflexivity|].
  rewrite !length_map.
  repeat split.
  - apply incl_map, incl_filter.
  - apply filter_length_le.
  - apply incl_map, incl_filter.
  - apply filter_length_le.
Qed.

Lemma selected_within_list_all_witness :
  exists All Found One,
    fst (Events.get_all_events configured_world) =
      Return {| status := 200; body := Json (envelope All) |} /\
    fst (Events.search_event complete_request configured_world) =
      Return {| status := 200; body := Json (envelope Found) |} /\
    fst (Events.get_one_event "000000000000000000000007" configured_world) =
      Return {| status := 200; body := Json (envelope One) |} /\
    incl Found All /\ List.length Found <= List.length All /\
    incl One All /\ List.length One <= List.length All.
Proof.
  apply (selected_within_list_all configured_world complete_request "Launch"
           "000000000000000000000007" (to_bytes 12 7)).
  - reflexivity.
  - reflexivity.
  - vm_compute. reflexivity.
Defined.



(** X8.  A valid identifier that no stored document carries is not an
    error: with a configured store, get-one-by-id answers 200 with an
    empty list and a count of zero. *)
Theorem get_one_event_no_match w event_id raw :
  Events.COLLECTION w = Events.all_events ->
  ObjectId event_id = Return raw ->
  forallb (fun doc => negb (Mongo.has_id raw doc))
    (Mongo.documents (Mongo.content (Events.eventsDB w))) = true ->
  fst (Events.get_one_event event_id w) =
  Return {| status := 200;
            body := Json (VDict [("events", VList []); ("num_events", VInt 0)]) |}.
Proof.
  intros Hc Hid Hnone.
  rewrite (get_one_event_configured _ _ _ Hc Hid). cbn [fst].
  replace (filter (Mongo.has_id raw) (Mongo.documents (Mongo.content (Events.eventsDB w))))
    with (@nil dict); [reflexivity|].
  induction (Mongo.documents (Mongo.content (Events.eventsDB w))) as [|doc docs IH];
    [reflexivity|].
  cbn [forallb filter] in *. apply andb_true_iff in Hnone. destruct Hnone as [H1 H2].
  destruct (Mongo.has_id raw doc); [discriminate|]. apply IH, H2.
Qed.

Lemma get_one_event_no_match_witness :
  fst (Events.get_one_event "5d2f2d4b1c9d440000a1b2c3" configured_world) =
  Return {| status := 200;
            body := Json (VDict [("events", VList []); ("num_events", VInt 0)]) |}.
Proof.
  apply (get_one_event_no_match configured_world "5d2f2d4b1c9d440000a1b2c3"
           [93; 47; 45; 75; 28; 157; 68; 0; 0; 161; 178; 195]%N).
  - reflexivity.
  - vm_compute. reflexivity.
  - vm_compute. reflexivity.
Defined.

(** ** Events: the document that is stored *)

(** X9.  The one document that a complete add request hands to the
    store has exactly the keys [name], [description], [author],
    [event_time], [created_at], in this order: the form fields
    [event_name] and [author_id] are stored as [name] and [author], and
    no other form field is stored.  The indexes of the collection are
    left as they were. *)
Theorem add_event_document w request n d a t :
  Events.COLLECTION w = Events.all_events ->
  multi_get (form request) "event_name" = Some n ->
  multi_get (form request) "description" = Some d ->
  multi_get (form request) "author_id" = Some a ->
  multi_get (form request) "event_time" = Some t ->
  issued (Events.eventsDB w) (Events.eventsDB (snd (Events.add_event request w)))
    [Mongo.insert_one_call
       [("name", VStr n); ("description", VStr d); ("author", VStr a);
        ("event_time", VStr t);
        ("created_at", VStr (isoformat_seconds (Events.utcnow w)))]] /\
  Mongo.indexes (Mongo.content (Events.eventsDB (snd (Events.add_event request w)))) =
    Mongo.indexes (Mongo.content (Events.eventsDB w)).
Proof.
  intros Hc Hn Hd Ha Ht.
  rewrite (add_event_configured _ _ _ _ _ _ Hc Hn Hd Ha Ht).
  split; reflexivity.
Qed.

Lemma add_event_document_witness :
  issued (Events.eventsDB configured_world)
    (Events.eventsDB (snd (Events.add_event complete_request configured_world)))
    [Mongo.insert_one_call
       [("name", VStr "Launch"); ("description", VStr "kickoff"); ("author", VStr "u1");
        ("event_time", VStr "2024-01-01T10:00:00");
        ("created_at", VStr (isoformat_seconds (Events.utcnow configured_world)))]] /\
  Mongo.indexes
    (Mongo.content
       (Events.eventsDB (snd (Events.add_event complete_request configured_world)))) =
    Mongo.indexes (Mongo.content (Events.eventsDB configured_world)).
Proof.
  apply (add_event_document configured_world complete_request
           "Launch" "kickoff" "u1" "2024-01-01T10:00:00"); reflexivity.
Defined.

Lemma dict_get_set_same (d : dict) k v : dict_get (dict_set d k v) k = Some v.
Proof.
  induction d as [|[k' v'] rest IH]; cbn [dict_set dict_get].
  - rewrite String.eqb_refl. reflexivity.
  - destruct (String.eqb k' k) eqn:E; cbn [dict_get]; rewrite E; [reflexivity|exact IH].
Qed.

Lemma dict_get_set_other (d : dict) k v k0 :
  k0 <> k -> dict_get (dict_set d k v) k0 = dict_get d k0.
Proof.
  intros Hne.
  induction d as [|[k' v'] rest IH]; cbn [dict_set dict_get].
  - destruct (String.eqb_spec k k0); [congruence|reflexivity].
  - destruct (String.eqb_spec k' k) as [->|Hk]; cbn [dict_get].
    + destruct (String.eqb_spec k k0); [congruence|reflexivity].
    + destruct (String.eqb k' k0); [reflexivity|exact IH].
Qed.

Lemma dict_keys_set_present (d : dict) k v :
  In k (dict_keys d) -> dict_keys (dict_set d k v) = dict_keys d.
Proof.
  induction d as [|[k' v'] rest IH]; cbn [dict_set dict_keys map fst In]; [tauto|].
  intros Hin.
  destruct (String.eqb_spec k' k) as [->|Hk]; [reflexivity|].
  cbn [map fst]. f_equal. apply IH.
  destruct Hin; [contradiction|assumption].
Qed.

Lemma dict_keys_set_absent (d : dict) k v :
  ~ In k (dict_keys d) -> dict_keys (dict_set d k v) = (dict_keys d ++ [k])%list.
Proof.
  induction d as [|[k' v'] rest IH]; cbn [dict_set dict_keys map fst In app];
    [reflexivity|].
  intros Hout.
  destruct (String.eqb_spec k' k) as [->|Hk]; [exfalso; apply Hout; auto|].
  cbn [map fst]. f_equal. apply IH. intros Hin. apply Hout. auto.
Qed.

(** X10.  [build_event_info] behaves as a dictionary update: in the
    result [created_at] is the given time, whatever [info] held under
    that key; every other key is bound as in [info]; the keys stay
    distinct, and the only key that can be new is [created_at], which
    then comes last. *)
Theorem build_event_info_update info time k :
  k <> "created_at" ->
  NoDup (dict_keys info) ->
  dict_get (Events.build_event_info info time) "created_at" = Some (VStr time) /\
  dict_get (Events.build_event_info info time) k = dict_get info k /\
  NoDup (dict_keys (Events.build_event_info info time)) /\
  (dict_keys (Events.build_event_info info time) = dict_keys info \/
   dict_keys (Events.build_event_info info time) =
     (dict_keys info ++ ["created_at"])%list).
Proof.
  intros Hk Hnd. unfold Events.build_event_info.
  split; [apply dict_get_set_same|].
  split; [apply dict_get_set_other, Hk|].
  destruct (in_dec string_dec "created_at" (dict_keys info)) as [Hin|Hout].
  - rewrite (dict_keys_set_present _ _ _ Hin). auto.
  - rewrite (dict_keys_set_absent _ _ _ Hout). split; [|auto].
    apply NoDup_app; [exact Hnd|repeat constructor; intros []|].
    intros x Hx [<-|[]]. contradiction.
Qed.

Lemma build_event_info_update_witness :
  dict_get (Events.build_event_info
              [("name", VStr "Launch"); ("created_at", VStr "client")]
              "2024-01-09 00:59:07") "created_at" =
    Some (VStr "2024-01-09 00:59:07") /\
  dict_get (Events.build_event_info
              [("name", VStr "Launch"); ("created_at", VStr "client")]
              "2024-01-09 00:59:07") "name" =
    dict_get [("name", VStr "Launch"); ("created_at", VStr "client")] "name" /\
  NoDup (dict_keys (Events.build_event_info
                      [("name", VStr "Launch"); ("created_at", VStr "client")]
                      "2024-01-09 00:59:07")) /\
  (dict_keys (Events.build_event_info
                [("name", VStr "Launch"); ("created_at", VStr "client")]
                "2024-01-09 00:59:07") =
     dict_keys [("name", VStr "Launch"); ("created_at", VStr "client")] \/
   dict_keys (Events.build_event_info
                [("name", VStr "Launch"); ("created_at", VStr "client")]
                "2024-01-09 00:59:07") =
     (dict_keys [("name", VStr "Launch"); ("created_at", VStr "client")] ++
      ["created_at"])%list).
Proof.
  apply (build_event_info_update
           [("name", VStr "Launch"); ("created_at", VStr "client")]
           "2024-01-09 00:59:07" "name").
  - discriminate.
  - simpl. repeat constructor; simpl; intuition discriminate.
Defined.

(** ** Users: the loop over the matching documents *)

Lemma is_authorized_to_edit_unfold username (w : Users.world) :
  Users.is_authorized_to_edit username w =
  match matching_users username w with
  | [] =>
      (Return false,
       Mongo.log (Mongo.count_documents_call (Mongo.match_string "username" username)) w)
  | _ :: _ =>
      Users.for_user_in (matching_users username w)
        (Mongo.log (Mongo.find_call (Mongo.match_string "username" username))
           (Mongo.log (Mongo.count_documents_call
                         (Mongo.match_string "username" username)) w))
  end.
Proof.
  unfold Users.is_authorized_to_edit, bind, Mongo.count_documents, Mongo.find,
    Mongo.select.
  cbn [Mongo.answerable].
  change (Mongo.content (Mongo.log _ w)) with (Mongo.content w).
  fold (matching_users username w).
  destruct (matching_users username w) as [|user rest] eqn:Em; [reflexivity|].
  cbn [List.length Nat.eqb]. cbv beta.
  change (Mongo.content (Mongo.log _ w)) with (Mongo.content w).
  fold (matching_users username w). rewrite Em. reflexivity.
Qed.

Lemma truthy_flag_step user rest (w : Users.world) :
  truthy_flag user = true ->
  Users.for_user_in (user :: rest) w = Users.for_user_in rest w.
Proof.
  unfold truthy_flag. intros H. cbn [Users.for_user_in]. unfold bind, subscript.
  destruct (dict_get user "is_organizer") as [v|]; [|discriminate].
  cbn. rewrite H. reflexivity.
Qed.

Lemma for_user_in_prefix pre rest (w : Users.world) :
  Forall (fun user => truthy_flag user = true) pre ->
  Users.for_user_in (pre ++ rest) w = Users.for_user_in rest w.
Proof.
  induction 1 as [|user pre Hu _ IH]; [reflexivity|].
  cbn [app]. rewrite (truthy_flag_step _ _ _ Hu). exact IH.
Qed.

Lemma for_user_in_flags cursor (w : Users.world) :
  Forall (fun user => dict_get user "is_organizer" <> None) cursor ->
  Users.for_user_in cursor w = (Return (forallb truthy_flag cursor), w).
Proof.
  induction 1 as [|user rest Hu _ IH]; [reflexivity|].
  cbn [Users.for_user_in forallb]. unfold bind, subscript, truthy_flag.
  destruct (dict_get user "is_organizer") as [v|]; [|contradiction].
  cbn. destruct (truthy v); cbn; [exact IH|reflexivity].
Qed.

Lemma is_authorized_to_edit_flags username (w : Users.world) :
  Forall (fun user => dict_get user "is_organizer" <> None) (matching_users username w) ->
  fst (Users.is_authorized_to_edit username w) =
  Return (match matching_users username w with
          | [] => false
          | _ :: _ => forallb truthy_flag (matching_users username w)
          end).
Proof.
  intros Hkeys. rewrite is_authorized_to_edit_unfold.
  destruct (matching_users username w) as [|user rest] eqn:Em; [reflexivity|].
  rewrite (for_user_in_flags _ _ Hkeys). reflexivity.
Qed.

(** X11.  The organizer test is Python's truth test, not a comparison
    with [True]: when every matching document has an [is_organizer]
    key, of whatever type, the decision is [false] on zero matches and
    otherwise the conjunction of the truth values of the flags.  A
    non-empty string or a non-zero number grants access; [None], [0],
    the empty string and [False] deny it. *)
Theorem is_authorized_to_edit_truth_test username (w : Users.world) :
  Forall (fun user => dict_get user "is_organizer" <> None) (matching_users username w) ->
  fst (Users.is_authorized_to_edit username w) =
  Return (match matching_users username w with
          | [] => false
          | _ :: _ => forallb truthy_flag (matching_users username w)
          end).
Proof. apply is_authorized_to_edit_flags. Qed.

Lemma is_authorized_to_edit_truth_test_witness :
  fst (Users.is_authorized_to_edit "cy" loose_users) =
  Return (match matching_users "cy" loose_users with
          | [] => false
          | _ :: _ => forallb truthy_flag (matching_users "cy" loose_users)
          end).
Proof.
  apply (is_authorized_to_edit_truth_test "cy" loose_users).
  vm_compute. repeat constructor. discriminate.
Defined.

(** X12.  A matching document without the [is_organizer] key, reached
    after documents whose flags are all true, makes the decision raise
    [KeyError]; the authorization route has no handler for it, so the
    exception leaves the route.  The collection is not changed. *)
Theorem is_authorized_to_edit_missing_flag username request (w : Users.world) pre bad post :
  matching_users username w = (pre ++ bad :: post)%list ->
  Forall (fun user => truthy_flag user = true) pre ->
  dict_get bad "is_organizer" = None ->
  multi_get (form request) "user_id" = Some username ->
  fst (Users.is_authorized_to_edit username w) = Raise (KeyError "is_organizer") /\
  fst (Users.get_authorization request w) = Raise (KeyError "is_organizer") /\
  Mongo.content (snd (Users.get_authorization request w)) = Mongo.content w.
Proof.
  intros Hm Hpre Hbad Hform.
  assert (Hdecision : fst (Users.is_authorized_to_edit username w) =
                      Raise (KeyError "is_organizer")).
  { rewrite is_authorized_to_edit_unfold, Hm.
    destruct (pre ++ bad :: post)%list as [|x l] eqn:E;
      [destruct pre; discriminate|].
    rewrite <- E, (for_user_in_prefix _ _ _ Hpre).
    cbn [Users.for_user_in]. unfold bind, subscript. rewrite Hbad. reflexivity. }
  split; [exact Hdecision|].
  split; [|apply get_authorization_state].
  unfold Users.get_authorization. rewrite Hform. unfold bind.
  destruct (Users.is_authorized_to_edit username w) as [[b|e] w'];
    cbn in *; congruence.
Qed.

Lemma is_authorized_to_edit_missing_flag_witness :
  fst (Users.is_authorized_to_edit "dee" loose_users) = Raise (KeyError "is_organizer") /\
  fst (Users.get_authorization (authorization_request "dee") loose_users) =
    Raise (KeyError "is_organizer") /\
  Mongo.content (snd (Users.get_authorization (authorization_request "dee") loose_users)) =
    Mongo.content loose_users.
Proof.
  apply (is_authorized_to_edit_missing_flag "dee" (authorization_request "dee") loose_users
           [[("username", VStr "dee"); ("is_organizer", VBool true)]]
           [("username", VStr "dee"); ("name", VStr "Dee")]
           []).
  - reflexivity.
  - repeat constructor.
  - reflexivity.
  - reflexivity.
Defined.

(** X13.  The loop stops at the first matching document whose flag is
    false: the decision is then [false] whatever the later matching
    documents hold, a later document without the key included. *)
Theorem is_authorized_to_edit_first_refusal username (w : Users.world) pre user v post :
  matching_users username w = (pre ++ user :: post)%list ->
  Forall (fun user => truthy_flag user = true) pre ->
  dict_get user "is_organizer" = Some v ->
  truthy v = false ->
  fst (Users.is_authorized_to_edit username w) = Return false.
Proof.
  intros Hm Hpre Hv Hfalse.
  rewrite is_authorized_to_edit_unfold, Hm.
  destruct (pre ++ user :: post)%list as [|x l] eqn:E;
    [destruct pre; discriminate|].
  rewrite <- E, (for_user_in_prefix _ _ _ Hpre).
  cbn [Users.for_user_in]. unfold bind, subscript. rewrite Hv. cbn.
  rewrite Hfalse. reflexivity.
Qed.

Lemma is_authorized_to_edit_first_refusal_witness :
  fst (Users.is_authorized_to_edit "eli" loose_users) = Return false.
Proof.
  apply (is_authorized_to_edit_first_refusal "eli" loose_users
           []
           [("username", VStr "eli"); ("is_organizer", VInt 0)]
           (VInt 0)
           [[("username", VStr "eli"); ("name", VStr "Eli")]]).
  - reflexivity.
  - constructor.
  - reflexivity.
  - reflexivity.
Defined.

Lemma is_authorized_to_edit_issued username (w : Users.world) :
  issued w (snd (Users.is_authorized_to_edit username w))
    match matching_users username w with
    | [] => [Mongo.count_documents_call (Mongo.match_string "username" username)]
    | _ :: _ => [Mongo.count_documents_call (Mongo.match_string "username" username);
                 Mongo.find_call (Mongo.match_string "username" username)]
    end.
Proof.
  rewrite is_authorized_to_edit_unfold.
  destruct (matching_users username w) as [|user rest]; [reflexivity|].
  rewrite for_user_in_state. unfold issued. cbn. rewrite <- app_assoc. reflexivity.
Qed.

(** X14.  The decision costs one store call when no document matches
    the username, the count, and [find] is then never issued; it costs
    two, the count and then the [find], when some document matches. *)
Theorem is_authorized_to_edit_calls username (w : Users.world) :
  issued w (snd (Users.is_authorized_to_edit username w))
    match matching_users username w with
    | [] => [Mongo.count_documents_call (Mongo.match_string "username" username)]
    | _ :: _ => [Mongo.count_documents_call (Mongo.match_string "username" username);
                 Mongo.find_call (Mongo.match_string "username" username)]
    end.
Proof. apply is_authorized_to_edit_issued. Qed.

(** ** Users: the authorization route *)

(** X15.  A request without the [user_id] form field is answered with
    status 200 and the JSON object [{"error": ...}], not with an error
    status, and the store is not consulted; a request with the field
    consults the store, with exactly the calls of the decision for that
    user. *)
Theorem get_authorization_consults_store request (w : Users.world) :
  match multi_get (form request) "user_id" with
  | None =>
      Users.get_authorization request w =
      (Return {| status := 200;
                 body := Json (VDict [("error",
                   VStr "You must supply a 'user_id' POST parameter!")]) |},
       w)
  | Some user_id =>
      issued w (snd (Users.get_authorization request w))
        match matching_users user_id w with
        | [] => [Mongo.count_documents_call (Mongo.match_string "username" user_id)]
        | _ :: _ => [Mongo.count_documents_call (Mongo.match_string "username" user_id);
                     Mongo.find_call (Mongo.match_string "username" user_id)]
        end
  end.
Proof.
  unfold Users.get_authorization.
  destruct (multi_get (form request) "user_id") as [user_id|]; [|reflexivity].
  assert (Hcalls := is_authorized_to_edit_issued user_id w).
  unfold bind.
  destruct (Users.is_authorized_to_edit user_id w) as [[b|e] w']; exact Hcalls.
Qed.

(** X16.  A request with a [user_id], on a collection whose matching
    documents all have the flag, is answered with status 200 and
    [{"edit_access": b}] where [b] is the decision for that user: false
    for an unknown user, otherwise the conjunction of the flags.  The
    value of [user_id] is the username that is looked up. *)
Theorem get_authorization_answer request user_id (w : Users.world) :
  multi_get (form request) "user_id" = Some user_id ->
  Forall (fun user => dict_get user "is_organizer" <> None) (matching_users user_id w) ->
  fst (Users.get_authorization request w) =
  Return {| status := 200;
            body := Json (VDict [("edit_access",
              VBool (match matching_users user_id w with
                     | [] => false
                     | _ :: _ => forallb truthy_flag (matching_users user_id w)
                     end))]) |}.
Proof.
  intros Hform Hkeys.
  assert (Hd := is_authorized_to_edit_flags user_id w Hkeys).
  unfold Users.get_authorization. rewrite Hform. unfold bind.
  destruct (Users.is_authorized_to_edit user_id w) as [[b|e] w'];
    cbn in *; [|discriminate].
  injection Hd as ->. reflexivity.
Qed.

Lemma get_authorization_answer_witness :
  fst (Users.get_authorization (authorization_request "ada") sample_users) =
  Return {| status := 200;
            body := Json (VDict [("edit_access",
              VBool (match matching_users "ada" sample_users with
                     | [] => false
                     | _ :: _ => forallb truthy_flag (matching_users "ada" sample_users)
                     end))]) |}.
Proof.
  apply (get_authorization_answer (authorization_request "ada") "ada" sample_users).
  - reflexivity.
  - vm_compute. repeat constructor; discriminate.
Defined.

(** ** Events: which identifiers [get_one_event] accepts *)

Lemma length_list_ascii_of_string s :
  List.length (list_ascii_of_string s) = String.length s.
Proof. induction s as [|c s IH]; cbn; congruence. Qed.

Lemma hex_not_space c : is_hex c = true -> is_space c = false.
Proof.
  destruct c as [[] [] [] [] [] [] [] []]; vm_compute; intros H;
    first [reflexivity | discriminate H].
Qed.

Lemma hex_value_bound c v : hex_value c = Some v -> (v < 16)%N.
Proof.
  destruct c as [[] [] [] [] [] [] [] []]; vm_compute; intros H;
    first [discriminate H | injection H as <-; reflexivity].
Qed.

Lemma fromhex_hex_digits n : forall l,
  List.length l = 2 * n ->
  forallb is_hex l = true ->
  exists raw, fromhex l = Some raw /\ List.length raw = n /\
              Forall (fun b => (b < 256)%N) raw.
Proof.
  induction n as [|n IH]; intros l Hlen Hhex.
  - destruct l; [|discriminate]. exists []. repeat split. constructor.
  - destruct l as [|c [|c' rest]]; try (cbn in Hlen; lia).
    cbn [forallb] in Hhex.
    apply andb_true_iff in Hhex. destruct Hhex as [Hc Hhex].
    apply andb_true_iff in Hhex. destruct Hhex as [Hc' Hrest].
    destruct (IH rest ltac:(cbn in Hlen; lia) Hrest) as (raw & Hraw & Hn & Hb).
    cbn [fromhex]. rewrite (hex_not_space _ Hc).
    unfold is_hex in Hc, Hc'.
    destruct (hex_value c) as [hi|] eqn:Ehi; [|discriminate].
    destruct (hex_value c') as [lo|] eqn:Elo; [|discriminate].
    rewrite Hraw. cbn [option_map].
    exists ((16 * hi + lo)%N :: raw). repeat split.
    + cbn. congruence.
    + constructor; [|exact Hb].
      apply hex_value_bound in Ehi. apply hex_value_bound in Elo. lia.
Qed.

Lemma fromhex_refuses : forall n l bad,
  List.length l <= n ->
  In bad l -> is_hex bad = false -> is_space bad = false ->
  fromhex l = None.
Proof.
  induction n as [|n IH]; intros l bad Hlen Hin Hhex Hsp.
  - destruct l; [contradiction|cbn in Hlen; lia].
  - destruct l as [|c rest]; [contradiction|].
    cbn [fromhex].
    destruct (is_space c) eqn:Ec.
    + destruct Hin as [->|Hin]; [congruence|].
      apply (IH rest bad); [cbn in Hlen; lia|assumption..].
    + destruct (hex_value c) as [hi|] eqn:Ehi; [|reflexivity].
      destruct rest as [|c' rest']; [reflexivity|].
      destruct (hex_value c') as [lo|] eqn:Elo; [|reflexivity].
      destruct Hin as [->|[->|Hin]].
      * unfold is_hex in Hhex. rewrite Ehi in Hhex. discriminate.
      * unfold is_hex in Hhex. rewrite Elo in Hhex. discriminate.
      * rewrite (IH rest' bad); [reflexivity|cbn in Hlen; lia|assumption..].
Qed.

(** X17.  An [event_id] whose length is not 24, or that holds a
    character that is neither a hexadecimal digit nor white space, is
    refused by [ObjectId]: with a configured store, get-one-by-id then
    raises [InvalidId] out of the handler and issues no store call. *)
Theorem get_one_event_malformed_id w event_id bad :
  Events.COLLECTION w = Events.all_events ->
  String.length event_id <> 24 \/
  (In bad (list_ascii_of_string event_id) /\ is_hex bad = false /\ is_space bad = false) ->
  Events.get_one_event event_id w = (Raise (InvalidId event_id), w).
Proof.
  intros Hc Hbad. apply get_one_event_raises; [exact Hc|].
  destruct Hbad as [Hlen|(Hin & Hhex & Hsp)].
  - apply ObjectId_length, Hlen.
  - unfold ObjectId.
    destruct (Nat.eqb (String.length event_id) 24); [|reflexivity].
    rewrite (fromhex_refuses _ _ bad (le_n _) Hin Hhex Hsp). reflexivity.
Qed.

Lemma get_one_event_malformed_id_witness :
  Events.get_one_event "5d2f2d4b1c9d440000a1b2cg" configured_world =
  (Raise (InvalidId "5d2f2d4b1c9d440000a1b2cg"), configured_world).
Proof.
  apply (get_one_event_malformed_id configured_world "5d2f2d4b1c9d440000a1b2cg" "g").
  - reflexivity.
  - right. vm_compute. intuition.
Defined.

(** X18.  An [event_id] of 24 hexadecimal digits, in either case, is
    accepted: [ObjectId] yields 12 bytes, and with a configured store
    get-one-by-id answers 200 with the envelope of the stored documents
    that carry this identifier. *)
Theorem get_one_event_hex_id w event_id :
  Events.COLLECTION w = Events.all_events ->
  String.length event_id = 24 ->
  forallb is_hex (list_ascii_of_string event_id) = true ->
  exists raw,
    ObjectId event_id = Return raw /\
    List.length raw = 12 /\
    Forall (fun b => (b < 256)%N) raw /\
    fst (Events.get_one_event event_id w) =
      Return {| status := 200;
                body := Json (envelope (map wire_event
                  (filter (Mongo.has_id raw)
                     (Mongo.documents (Mongo.content (Events.eventsDB w)))))) |}.
Proof.
  intros Hc Hlen Hhex.
  destruct (fromhex_hex_digits 12 (list_ascii_of_string event_id)) as (raw & Hraw & Hn & Hb).
  - rewrite length_list_ascii_of_string. exact Hlen.
  - exact Hhex.
  - assert (Hid : ObjectId event_id = Return raw).
    { unfold ObjectId. rewrite Hlen, Hraw. reflexivity. }
    exists raw. repeat split; try assumption.
    rewrite (get_one_event_configured _ _ _ Hc Hid). reflexivity.
Qed.

Lemma get_one_event_hex_id_witness :
  exists raw,
    ObjectId "5D2F2d4b1c9d440000A1B2C3" = Return raw /\
    List.length raw = 12 /\
    Forall (fun b => (b < 256)%N) raw /\
    fst (Events.get_one_event "5D2F2d4b1c9d440000A1B2C3" configured_world) =
      Return {| status := 200;
                body := Json (envelope (map wire_event
                  (filter (Mongo.has_id raw)
                     (Mongo.documents
                        (Mongo.content (Events.eventsDB configured_world)))))) |}.
Proof.
  apply (get_one_event_hex_id configured_world "5D2F2d4b1c9d440000A1B2C3").
  - reflexivity.
  - reflexivity.
  - vm_compute. reflexivity.
Defined.
